(** * Timetable generation as a constraint satisfaction problem

    A shallow embedding of [csp_solver.py] (class [TimetableCSP] and
    [main]): catalog parsing, variable and domain construction, the
    consistency check, the MRV variable selection, the bounded
    backtracking search and the projection of an assignment to schedule
    records; and of the three computing reports of [data_loader.py].

    Conventions of the embedding.
    - Identifiers, type tags and times are Python [str] values; they are
      modelled as [string] (ASCII text).
    - [Capacity], [StudentCount], the iteration counter and
      [max_iterations] are Python integers; they are modelled as [Z].
    - A Python [dict] keeps insertion order and unique keys; it is modelled
      as an association list with the same update discipline
      ([dict_set], [dict_del]).
    - [print] and [time.time()] only feed the console and are left out.
    - The recursion of [backtrack] goes one call deeper per assigned
      variable.  [backtracking_search] is the search on a stack deep
      enough for it; [backtracking_search_within] takes the number of
      nested calls the interpreter allows and ends in [RecursionError]
      when the search needs more. *)

From Stdlib Require Import String Ascii List ZArith Lia Bool Arith Permutation Sorted.
From Stdlib Require OrderedTypeEx.
Import ListNotations.
Open Scope string_scope.

(* ------------------------------------------------------------------ *)
(** ** Python strings *)

Module PyStr.

Definition is_upper (c : ascii) : bool :=
  let n := nat_of_ascii c in (65 <=? n)%nat && (n <=? 90)%nat.

Definition lower_ascii (c : ascii) : ascii :=
  if is_upper c then ascii_of_nat (nat_of_ascii c + 32) else c.

(** [s.lower()] *)
Fixpoint lower (s : string) : string :=
  match s with
  | EmptyString => EmptyString
  | String c s' => String (lower_ascii c) (lower s')
  end.

(** [needle in hay] on strings *)
Fixpoint contains (needle hay : string) : bool :=
  if prefix needle hay then true
  else match hay with
       | EmptyString => false
       | String _ hay' => contains needle hay'
       end.

(** the ASCII characters for which [str.isspace] holds *)
Definition is_space (c : ascii) : bool :=
  let n := nat_of_ascii c in
  ((9 <=? n)%nat && (n <=? 13)%nat) || ((28 <=? n)%nat && (n <=? 32)%nat).

Fixpoint lstrip (s : string) : string :=
  match s with
  | EmptyString => EmptyString
  | String c s' => if is_space c then lstrip s' else s
  end.

Fixpoint rstrip (s : string) : string :=
  match s with
  | EmptyString => EmptyString
  | String c s' =>
      match rstrip s' with
      | EmptyString => if is_space c then EmptyString else String c EmptyString
      | r => String c r
      end
  end.

(** [s.strip()] *)
Definition strip (s : string) : string := rstrip (lstrip s).

(** [s.split(sep)] for a one-character separator *)
Fixpoint split (sep : ascii) (s : string) : list string :=
  match s with
  | EmptyString => [EmptyString]
  | String c s' =>
      if Ascii.eqb c sep then EmptyString :: split sep s'
      else match split sep s' with
           | [] => [String c EmptyString]
           | w :: ws => String c w :: ws
           end
  end.

(** truth value of a string: non-empty *)
Definition truthy (s : string) : bool :=
  match s with EmptyString => false | _ => true end.

(** [[c.strip() for c in str(cell).split(',') if c.strip()]] *)
Definition id_list (cell : string) : list string :=
  filter truthy (map strip (split "," cell)).

End PyStr.

(* ------------------------------------------------------------------ *)
(** ** Python dictionaries with string keys *)

Definition dict (V : Type) : Type := list (string * V).

Section Dict.
Context {V : Type}.

(** [d.get(k)] *)
Fixpoint dict_get (k : string) (d : dict V) : option V :=
  match d with
  | [] => None
  | (k', v) :: d' => if k' =? k then Some v else dict_get k d'
  end.

(** [k in d] *)
Definition dict_mem (k : string) (d : dict V) : bool :=
  existsb (fun kv => fst kv =? k) d.

(** [d[k] = v]: an existing key keeps its position, a new one goes last *)
Fixpoint dict_set (k : string) (v : V) (d : dict V) : dict V :=
  match d with
  | [] => [(k, v)]
  | (k', v') :: d' =>
      if k' =? k then (k, v) :: d' else (k', v') :: dict_set k v d'
  end.

(** [del d[k]] *)
Definition dict_del (k : string) (d : dict V) : dict V :=
  filter (fun kv => negb (fst kv =? k)) d.

(** [list(d.keys())] *)
Definition dict_keys (d : dict V) : list string := map fst d.

End Dict.

(* ------------------------------------------------------------------ *)
(** ** Input catalogs: one record per row of the five data frames *)

Record CourseRow := mkCourseRow
  { CourseID : string; CourseName : string; CourseType : string; Credits : Z }.

Record InstructorRow := mkInstructorRow
  { InstructorID : string; Name : string;
    QualifiedCourses : string; PreferredSlots : string }.

Record RoomRow := mkRoomRow
  { RoomID : string; RoomType : string; Capacity : Z }.

Record TimeSlotRow := mkTimeSlotRow
  { TimeSlotID : string; Day : string; StartTime : string; EndTime : string }.

Record SectionRow := mkSectionRow
  { SectionID : string; StudentCount : Z; Courses : string }.

Record Data := mkData
  { data_courses : list CourseRow;
    data_instructors : list InstructorRow;
    data_rooms : list RoomRow;
    data_timeslots : list TimeSlotRow;
    data_sections : list SectionRow }.

(* ------------------------------------------------------------------ *)
(** ** The parsed lookup tables and the CSP object *)

Record InstructorInfo := mkInstructorInfo
  { instr_name : string; instr_courses : list string; instr_preferences : string }.

Record SectionInfo := mkSectionInfo
  { sec_student_count : Z; sec_courses : list string }.

Record CourseInfo := mkCourseInfo
  { crs_name : string; crs_type : string; crs_credits : Z }.

Record RoomInfo := mkRoomInfo
  { room_type : string; room_capacity : Z }.

Record TimeSlot := mkTimeSlot
  { ts_id : string; ts_day : string; ts_start : string; ts_end : string }.

Record VarInfo := mkVarInfo
  { section_id : string; course_id : string; student_count : Z;
    course_type : string; course_name : string }.

Record DomainValue := mkDomainValue
  { room : string; timeslot_id : string; day : string;
    start_time : string; end_time : string;
    instructor_id : string; instructor_name : string }.

(** The attributes of a [TimetableCSP] instance that are fixed once
    [__init__] has run.  The one attribute mutated afterwards,
    [self.assignment], is threaded explicitly through the search. *)
Record TimetableCSP := mkCSP
  { variables : list string;
    domains : dict (list DomainValue);
    variable_info : dict VarInfo;
    instructor_courses : dict InstructorInfo;
    section_courses : dict SectionInfo;
    courses : dict CourseInfo;
    rooms : dict RoomInfo;
    timeslots : list TimeSlot }.

Definition UNASSIGNED : string := "UNASSIGNED".

(* ------------------------------------------------------------------ *)
(** ** [_parse_data] *)

Definition parse_instructors (rows : list InstructorRow) : dict InstructorInfo :=
  fold_left
    (fun d r =>
       dict_set (InstructorID r)
         (mkInstructorInfo (Name r) (PyStr.id_list (QualifiedCourses r))
                           (PreferredSlots r)) d)
    rows [].

Definition parse_sections (rows : list SectionRow) : dict SectionInfo :=
  fold_left
    (fun d r =>
       dict_set (SectionID r)
         (mkSectionInfo (StudentCount r) (PyStr.id_list (Courses r))) d)
    rows [].

Definition parse_courses (rows : list CourseRow) : dict CourseInfo :=
  fold_left
    (fun d r =>
       dict_set (CourseID r)
         (mkCourseInfo (CourseName r) (CourseType r) (Credits r)) d)
    rows [].

Definition parse_rooms (rows : list RoomRow) : dict RoomInfo :=
  fold_left
    (fun d r => dict_set (RoomID r) (mkRoomInfo (RoomType r) (Capacity r)) d)
    rows [].

Definition parse_timeslots (rows : list TimeSlotRow) : list TimeSlot :=
  map (fun r => mkTimeSlot (TimeSlotID r) (Day r) (StartTime r) (EndTime r)) rows.

(** The object after [_parse_data]: the tables are filled, the CSP
    components are still empty. *)
Definition _parse_data (data : Data) : TimetableCSP :=
  {| variables := [];
     domains := [];
     variable_info := [];
     instructor_courses := parse_instructors (data_instructors data);
     section_courses := parse_sections (data_sections data);
     courses := parse_courses (data_courses data);
     rooms := parse_rooms (data_rooms data);
     timeslots := parse_timeslots (data_timeslots data) |}.

(* ------------------------------------------------------------------ *)
(** ** [_create_variables] *)

(** [f"{section_id}_{course_id}"] *)
Definition var_name (sid cid : string) : string := sid ++ "_" ++ cid.

(** One pass of the inner loop body: the guard [course_id in self.courses]
    and, when it holds, the append to [self.variables] together with the
    write to [self.variable_info]. *)
Definition add_variable (crs : dict CourseInfo) (sid : string) (sdata : SectionInfo)
    (acc : list string * dict VarInfo) (cid : string) : list string * dict VarInfo :=
  match dict_get cid crs with
  | Some c =>
      let v := var_name sid cid in
      ((fst acc ++ [v])%list,
       dict_set v (mkVarInfo sid cid (sec_student_count sdata) (crs_type c) (crs_name c))
                (snd acc))
  | None => acc
  end.

Definition add_section (crs : dict CourseInfo)
    (acc : list string * dict VarInfo) (item : string * SectionInfo)
    : list string * dict VarInfo :=
  fold_left (add_variable crs (fst item) (snd item)) (sec_courses (snd item)) acc.

Definition _create_variables (self : TimetableCSP) : TimetableCSP :=
  let r := fold_left (add_section (courses self)) (section_courses self)
                     (variables self, variable_info self) in
  {| variables := fst r;
     domains := domains self;
     variable_info := snd r;
     instructor_courses := instructor_courses self;
     section_courses := section_courses self;
     courses := courses self;
     rooms := rooms self;
     timeslots := timeslots self |}.

(* ------------------------------------------------------------------ *)
(** ** [_room_matches_course] and [_create_domains] *)

Definition _room_matches_course (room_type course_type : string) : bool :=
  let room_lower := PyStr.lower room_type in
  let course_lower := PyStr.lower course_type in
  if PyStr.contains "lecture" course_lower && PyStr.contains "lecture" room_lower then true
  else if PyStr.contains "lab" course_lower && PyStr.contains "lab" room_lower then true
  else if PyStr.contains "lecture" course_lower && PyStr.contains "lab" course_lower then true
  else false.

(** The cap of the last-resort room list, [[:10]]. *)
Definition fallback_cap : nat := 10.

(** First loop over [self.rooms.items()]: type match and enough seats. *)
Definition rooms_first_pass (rms : dict RoomInfo) (ctype : string) (count : Z)
    : list string :=
  map fst
    (filter (fun kv => _room_matches_course (room_type (snd kv)) ctype
                       && (count <=? room_capacity (snd kv))%Z) rms).

(** Second loop, run when the first found nothing: type match only. *)
Definition rooms_relaxed_pass (rms : dict RoomInfo) (ctype : string) : list string :=
  map fst (filter (fun kv => _room_matches_course (room_type (snd kv)) ctype) rms).

(** [list(self.rooms.keys())[:10]] *)
Definition rooms_fallback (rms : dict RoomInfo) : list string :=
  firstn fallback_cap (dict_keys rms).

Definition is_nil {A} (l : list A) : bool :=
  match l with [] => true | _ => false end.

Definition suitable_rooms (rms : dict RoomInfo) (ctype : string) (count : Z)
    : list string :=
  let s1 := rooms_first_pass rms ctype count in
  let s2 := if is_nil s1 then rooms_relaxed_pass rms ctype else s1 in
  if is_nil s2 then rooms_fallback rms else s2.

(** [x in l] for a list of strings *)
Definition list_mem (x : string) (l : list string) : bool :=
  existsb (fun y => y =? x) l.

Definition qualified_instructors (ins : dict InstructorInfo) (cid : string)
    : list string :=
  let q := map fst (filter (fun kv => list_mem cid (instr_courses (snd kv))) ins) in
  if is_nil q then [UNASSIGNED] else q.

(** [self.instructor_courses.get(instructor_id, {}).get('name', 'Unassigned')] *)
Definition instructor_name_of (ins : dict InstructorInfo) (iid : string) : string :=
  match dict_get iid ins with
  | Some i => instr_name i
  | None => "Unassigned"
  end.

(** The three nested loops that fill [domain]. *)
Definition build_domain (ins : dict InstructorInfo) (rs : list string)
    (tss : list TimeSlot) (iids : list string) : list DomainValue :=
  flat_map (fun room_id =>
    flat_map (fun timeslot =>
      map (fun iid =>
             mkDomainValue room_id (ts_id timeslot) (ts_day timeslot)
                           (ts_start timeslot) (ts_end timeslot)
                           iid (instructor_name_of ins iid))
          iids)
      tss)
    rs.

Definition domain_for (self : TimetableCSP) (var_info : VarInfo) : list DomainValue :=
  build_domain (instructor_courses self)
    (suitable_rooms (rooms self) (course_type var_info) (student_count var_info))
    (timeslots self)
    (qualified_instructors (instructor_courses self) (course_id var_info)).

(** One pass of the loop over [self.variables].  [self.variable_info[var_name]]
    is a plain subscript; lemma [variable_info_present] shows the key is
    always there for an object built by [TimetableCSP_init]. *)
Definition add_domain (self : TimetableCSP) (doms : dict (list DomainValue))
    (v : string) : dict (list DomainValue) :=
  match dict_get v (variable_info self) with
  | Some var_info => dict_set v (domain_for self var_info) doms
  | None => doms
  end.

Definition _create_domains (self : TimetableCSP) : TimetableCSP :=
  {| variables := variables self;
     domains := fold_left (add_domain self) (variables self) (domains self);
     variable_info := variable_info self;
     instructor_courses := instructor_courses self;
     section_courses := section_courses self;
     courses := courses self;
     rooms := rooms self;
     timeslots := timeslots self |}.

(** [TimetableCSP.__init__] *)
Definition TimetableCSP_init (data : Data) : TimetableCSP :=
  _create_domains (_create_variables (_parse_data data)).

(** [self.domains[v]] and [self.variable_info[v]] as used by the solver. *)
Definition domain_of (self : TimetableCSP) (v : string) : list DomainValue :=
  match dict_get v (domains self) with Some d => d | None => [] end.

(** [self.variable_info[v]] for a name that has an entry, which every
    listed variable has (lemma [variable_info_present]).  For a name
    without entry the program raises [KeyError]; that case is kept out of
    the statements by their hypotheses on the names involved. *)
Definition info_of (self : TimetableCSP) (v : string) : VarInfo :=
  match dict_get v (variable_info self) with
  | Some i => i
  | None => mkVarInfo EmptyString EmptyString 0 EmptyString EmptyString
  end.

(** [self.variable_info[v]['section_id']] *)
Definition section_of (self : TimetableCSP) (v : string) : string :=
  section_id (info_of self v).

(* ------------------------------------------------------------------ *)
(** ** Constraint checking: [is_consistent] *)

(** The body of the loop over [self.assignment.items()]: [true] when one
    of the three [return False] branches is taken for this entry. *)
Definition clashes (self : TimetableCSP) (var : string) (value : DomainValue)
    (entry : string * DomainValue) : bool :=
  let assigned_var := fst entry in
  let assigned_value := snd entry in
  let same_slot := timeslot_id value =? timeslot_id assigned_value in
  if (room value =? room assigned_value) && same_slot then true
  else if (instructor_id value =? instructor_id assigned_value) && same_slot
          && negb (instructor_id value =? UNASSIGNED) then true
  else if (section_of self var =? section_of self assigned_var) && same_slot then true
  else false.

Definition is_consistent (self : TimetableCSP) (assignment : dict DomainValue)
    (var : string) (value : DomainValue) : bool :=
  forallb (fun entry => negb (clashes self var value entry)) assignment.

(* ------------------------------------------------------------------ *)
(** ** Variable selection: [select_unassigned_variable] *)

(** [list.sort(key=...)] is stable; it is modelled by a stable insertion
    sort on the key. *)
Fixpoint insert_by_key {A} (key : A -> nat) (x : A) (l : list A) : list A :=
  match l with
  | [] => [x]
  | y :: l' => if (key x <=? key y)%nat then x :: l else y :: insert_by_key key x l'
  end.

Definition sort_by_key {A} (key : A -> nat) (l : list A) : list A :=
  fold_right (insert_by_key key) [] l.

Definition unassigned_variables (self : TimetableCSP) (assignment : dict DomainValue)
    : list string :=
  filter (fun v => negb (dict_mem v assignment)) (variables self).

Definition domain_size (self : TimetableCSP) (v : string) : nat :=
  List.length (domain_of self v).

Definition select_unassigned_variable (self : TimetableCSP)
    (assignment : dict DomainValue) : option string :=
  let unassigned := unassigned_variables self assignment in
  if is_nil unassigned then None
  else hd_error (sort_by_key (domain_size self) unassigned).

(* ------------------------------------------------------------------ *)
(** ** The search: [backtracking_search] and its closure [backtrack] *)

(** The mutable state captured by [backtrack]: [self.assignment] and the
    counter cell [iterations[0]].  [history] is a ghost log, absent from
    the program: every value [self.assignment] has taken so far, newest
    first.  It lets the invariants be stated for every intermediate
    state and never influences control flow. *)
Record SearchState := mkState
  { assignment : dict DomainValue;
    iterations : Z;
    history : list (dict DomainValue) }.

(** [iterations[0] += 1] *)
Definition tick (st : SearchState) : SearchState :=
  {| assignment := assignment st;
     iterations := iterations st + 1;
     history := history st |}.

(** [self.assignment[var] = value] *)
Definition assign (var : string) (value : DomainValue) (st : SearchState) : SearchState :=
  let a := dict_set var value (assignment st) in
  {| assignment := a; iterations := iterations st; history := a :: history st |}.

(** [del self.assignment[var]] *)
Definition unassign (var : string) (st : SearchState) : SearchState :=
  let a := dict_del var (assignment st) in
  {| assignment := a; iterations := iterations st; history := a :: history st |}.

(** The [for value in self.domains[var]] loop; [recurse] is the recursive
    call [backtrack()].  [None] means the recursion ran out of fuel. *)
Fixpoint try_values (self : TimetableCSP)
    (recurse : SearchState -> option (bool * SearchState))
    (var : string) (values : list DomainValue) (st : SearchState)
    : option (bool * SearchState) :=
  match values with
  | [] => Some (false, st)
  | value :: rest =>
      if is_consistent self (assignment st) var value then
        match recurse (assign var value st) with
        | None => None
        | Some (true, st') => Some (true, st')
        | Some (false, st') => try_values self recurse var rest (unassign var st')
        end
      else try_values self recurse var rest st
  end.

(** [backtrack()], with the depth of the Python call stack bounded by
    [fuel]. *)
Fixpoint backtrack (self : TimetableCSP) (max_iterations : Z) (fuel : nat)
    (st : SearchState) : option (bool * SearchState) :=
  match fuel with
  | O => None
  | S fuel' =>
      let st1 := tick st in
      if (max_iterations <=? iterations st1)%Z then Some (false, st1)
      else if (List.length (assignment st1) =? List.length (variables self))%nat
           then Some (true, st1)
      else match select_unassigned_variable self (assignment st1) with
           | None => Some (false, st1)
           | Some var =>
               try_values self (backtrack self max_iterations fuel')
                          var (domain_of self var) st1
           end
  end.

(** State on entry: [self.assignment = {}], [iterations = [0]]. *)
Definition initial_state : SearchState :=
  {| assignment := []; iterations := 0; history := [[]] |}.

(** What a call of [backtracking_search] leaves behind.  [success] is the
    value it returns; [left_assignment] is [self.assignment] after the
    call, the only other thing the caller can read; [printed_iterations]
    is the final [iterations[0]], which is printed and then dropped;
    [visited] is the ghost log. *)
Record SearchRun := mkRun
  { success : bool;
    left_assignment : dict DomainValue;
    printed_iterations : Z;
    visited : list (dict DomainValue) }.

(** The call stack never gets deeper than one frame per variable plus
    one (lemma [backtrack_total]), so this fuel is never used up. *)
Definition search_fuel (self : TimetableCSP) : nat := S (List.length (variables self)).

Definition backtracking_search (self : TimetableCSP) (max_iterations : Z)
    : option SearchRun :=
  match backtrack self max_iterations (search_fuel self) initial_state with
  | Some (b, st) => Some (mkRun b (assignment st) (iterations st) (history st))
  | None => None
  end.

(* ------------------------------------------------------------------ *)
(** ** Output: [generate_schedule_dataframe] *)

Module Schedule.

(** One row of the returned data frame. *)
Record row := mkRow
  { Section_ID : string; Course_Code : string; Course_Name : string;
    Activity_Type : string; Day : string; Start_Time : string;
    End_Time : string; Room : string; Instructor : string;
    Student_Count : Z }.

(** [df['Day'].map(day_order)]: a day outside the table maps to NaN. *)
Definition day_order (d : string) : option nat :=
  if d =? "Sunday" then Some 0
  else if d =? "Monday" then Some 1
  else if d =? "Tuesday" then Some 2
  else if d =? "Wednesday" then Some 3
  else if d =? "Thursday" then Some 4
  else None.

(** NaN keys are placed last by [sort_values]. *)
Definition rank_compare (a b : option nat) : comparison :=
  match a, b with
  | Some x, Some y => Nat.compare x y
  | Some _, None => Lt
  | None, Some _ => Gt
  | None, None => Eq
  end.

(** Order on the key [['Day_Order', 'Start_Time', 'Section_ID']]. *)
Definition row_le (r1 r2 : row) : bool :=
  match rank_compare (day_order (Day r1)) (day_order (Day r2)) with
  | Lt => true
  | Gt => false
  | Eq =>
      match String.compare (Start_Time r1) (Start_Time r2) with
      | Lt => true
      | Gt => false
      | Eq => String.leb (Section_ID r1) (Section_ID r2)
      end
  end.

(** [sort_values] on several columns keeps equal keys in their
    original order; modelled by a stable insertion sort. *)
Fixpoint insert_row (r : row) (l : list row) : list row :=
  match l with
  | [] => [r]
  | r' :: l' => if row_le r r' then r :: l else r' :: insert_row r l'
  end.

Definition sort_values (l : list row) : list row :=
  fold_right insert_row [] l.

End Schedule.

(** The dictionary appended to [schedule_data] for one assignment entry. *)
Definition schedule_record (self : TimetableCSP) (entry : string * DomainValue)
    : Schedule.row :=
  let var_info := info_of self (fst entry) in
  let value := snd entry in
  {| Schedule.Section_ID := section_id var_info;
     Schedule.Course_Code := course_id var_info;
     Schedule.Course_Name := course_name var_info;
     Schedule.Activity_Type := course_type var_info;
     Schedule.Day := day value;
     Schedule.Start_Time := start_time value;
     Schedule.End_Time := end_time value;
     Schedule.Room := room value;
     Schedule.Instructor := instructor_name value;
     Schedule.Student_Count := student_count var_info |}.

(** [None] is Python's [None]; [Some rows] is the sorted data frame. *)
Definition generate_schedule_dataframe (self : TimetableCSP)
    (assignment : dict DomainValue) : option (list Schedule.row) :=
  if is_nil assignment then None
  else Some (Schedule.sort_values (map (schedule_record self) assignment)).

(* ------------------------------------------------------------------ *)
(** ** The pipeline as a fallible computation *)

(** The two fail-fast faults named by the design document. *)
Inductive Fault := ConstructionError | EmptyDomainError.

(** Building the object, with the ways it can end.  [__init__] and the
    three methods it calls contain no [raise]; every path through them
    ends normally with the finished object. *)
Definition construct (data : Data) : Fault + TimetableCSP :=
  inr (TimetableCSP_init data).

(** [main]: build, then search with the given budget. *)
Definition pipeline (data : Data) (max_iterations : Z) : Fault + option SearchRun :=
  match construct data with
  | inl e => inl e
  | inr csp => inr (backtracking_search csp max_iterations)
  end.

(* ------------------------------------------------------------------ *)
(** ** The predicates the properties are stated with *)

(** Two chosen values occupy the same room in the same timeslot. *)
Definition room_clash (x y : DomainValue) : Prop :=
  room x = room y /\ timeslot_id x = timeslot_id y.

(** Two chosen values give the same real (non-placeholder) instructor the
    same timeslot. *)
Definition instructor_clash (x y : DomainValue) : Prop :=
  instructor_id x = instructor_id y /\ instructor_id x <> UNASSIGNED /\
  timeslot_id x = timeslot_id y.

(** Two variables of one section are given the same timeslot. *)
Definition section_clash (self : TimetableCSP)
    (v1 : string) (x1 : DomainValue) (v2 : string) (x2 : DomainValue) : Prop :=
  section_of self v1 = section_of self v2 /\ timeslot_id x1 = timeslot_id x2.

(** No pair of distinct assigned variables clashes in any of the three ways. *)
Definition no_clash (self : TimetableCSP) (a : dict DomainValue) : Prop :=
  forall v1 x1 v2 x2,
    In (v1, x1) a -> In (v2, x2) a -> v1 <> v2 ->
    ~ room_clash x1 x2 /\ ~ instructor_clash x1 x2 /\
    ~ section_clash self v1 x1 v2 x2.

(** A dictionary holds each key once. *)
Definition well_keyed {V} (a : dict V) : Prop := NoDup (dict_keys a).

Definition clash_free (self : TimetableCSP) (a : dict DomainValue) : Prop :=
  well_keyed a /\ no_clash self a.

(** What it means for a stored [variable_info] entry to stand for a real
    (section, course) pair of the catalogs: the key is the pair's name, the
    section lists the course, and the course is in the course table. *)
Definition info_sound (crs : dict CourseInfo) (secs : dict SectionInfo)
    (v : string) (info : VarInfo) : Prop :=
  v = var_name (section_id info) (course_id info) /\
  (exists sdata,
      In (section_id info, sdata) secs /\
      In (course_id info) (sec_courses sdata) /\
      student_count info = sec_student_count sdata) /\
  (exists c,
      dict_get (course_id info) crs = Some c /\
      course_type info = crs_type c /\ course_name info = crs_name c).

(** The accumulator of [_create_variables] is in order: every listed
    variable has an entry, and every entry is sound. *)
Definition vars_ok (crs : dict CourseInfo) (secs : dict SectionInfo)
    (acc : list string * dict VarInfo) : Prop :=
  (forall v, In v (fst acc) -> dict_get v (snd acc) <> None) /\
  (forall v info, dict_get v (snd acc) = Some info -> info_sound crs secs v info).

(** Two instructor rows that agree on everything but [PreferredSlots]. *)
Definition same_but_preferences (i1 i2 : InstructorRow) : Prop :=
  InstructorID i1 = InstructorID i2 /\ Name i1 = Name i2 /\
  QualifiedCourses i1 = QualifiedCourses i2.

(** Two inputs that differ at most in the [PreferredSlots] cells. *)
Definition differ_only_in_preferences (d1 d2 : Data) : Prop :=
  data_courses d1 = data_courses d2 /\
  data_rooms d1 = data_rooms d2 /\
  data_timeslots d1 = data_timeslots d2 /\
  data_sections d1 = data_sections d2 /\
  Forall2 same_but_preferences (data_instructors d1) (data_instructors d2).

(** The instructor table with the stored preference attribute blanked. *)
Definition forget_preference (i : InstructorInfo) : InstructorInfo :=
  mkInstructorInfo (instr_name i) (instr_courses i) EmptyString.

Definition forget_preferences (ins : dict InstructorInfo) : dict InstructorInfo :=
  map (fun kv => (fst kv, forget_preference (snd kv))) ins.

(** The substring tests [_room_matches_course] makes, named. *)
Definition lecture_type (type_tag : string) : bool :=
  PyStr.contains "lecture" (PyStr.lower type_tag).

Definition lab_type (type_tag : string) : bool :=
  PyStr.contains "lab" (PyStr.lower type_tag).

(** The compatibility rule as the design document words it, for
    comparison with [_room_matches_course]: a lecture room for a lecture
    course, a lab room for a lab course, one of those two kinds of room
    for a combined course. *)
Definition documented_room_rule (room_type course_type : string) : bool :=
  (lecture_type course_type && lecture_type room_type)
  || (lab_type course_type && lab_type room_type)
  || (lecture_type course_type && lab_type course_type
      && (lecture_type room_type || lab_type room_type)).


(** Number of variables still to assign; bounds the recursion depth. *)
Definition remaining (self : TimetableCSP) (a : dict DomainValue) : nat :=
  List.length (unassigned_variables self a).

(** What one call of [backtrack] (or one run of its loop) started in [st]
    guarantees about the flag [b] and state [st'] it ends with. *)
Record outcome_ok (self : TimetableCSP) (st : SearchState)
    (b : bool) (st' : SearchState) : Prop := mkOutcome
  { ok_now : clash_free self (assignment st');
    ok_log : Forall (clash_free self) (history st');
    ok_restored : b = false -> assignment st' = assignment st;
    ok_complete : b = true ->
                  List.length (assignment st') = List.length (variables self);
    ok_counter : (iterations st <= iterations st')%Z }.

Definition state_ok (self : TimetableCSP) (st : SearchState) : Prop :=
  clash_free self (assignment st) /\ Forall (clash_free self) (history st).

(** Every entry gives a listed variable a value of that variable's own
    domain. *)
Definition drawn_from_domains (self : TimetableCSP) (a : dict DomainValue) : Prop :=
  forall v x, In (v, x) a -> In v (variables self) /\ In x (domain_of self v).

(** A finished timetable in the sense of the search: clash free, built
    from the domains, and complete by the test the code uses,
    [len(self.assignment) == len(self.variables)]. *)
Definition solution (self : TimetableCSP) (a : dict DomainValue) : Prop :=
  clash_free self a /\ drawn_from_domains self a /\
  List.length a = List.length (variables self).

(* ------------------------------------------------------------------ *)
(** ** Small catalogs used as concrete inputs *)

Module Examples.

Definition one_slot : list TimeSlotRow :=
  [mkTimeSlotRow "T1" "Sunday" "09:00" "10:30"].

Definition two_slots : list TimeSlotRow :=
  [mkTimeSlotRow "T1" "Sunday" "09:00" "10:30";
   mkTimeSlotRow "T2" "Sunday" "11:00" "12:30"].

(** Two sections, one course each, a single room and a single slot. *)
Definition one_room_two_sections : Data :=
  {| data_courses := [mkCourseRow "C1" "Algorithms" "Lecture" 3;
                      mkCourseRow "C2" "Networks" "Lecture" 3];
     data_instructors := [mkInstructorRow "I1" "Ann" "C1" "T1";
                          mkInstructorRow "I2" "Bob" "C2" "T1"];
     data_rooms := [mkRoomRow "R1" "Lecture Hall" 40];
     data_timeslots := one_slot;
     data_sections := [mkSectionRow "S1" 30 "C1"; mkSectionRow "S2" 30 "C2"] |}.

(** The same catalog with other [PreferredSlots] cells. *)
Definition one_room_two_sections' : Data :=
  {| data_courses := data_courses one_room_two_sections;
     data_instructors := [mkInstructorRow "I1" "Ann" "C1" "never";
                          mkInstructorRow "I2" "Bob" "C2" "T9,T7"];
     data_rooms := data_rooms one_room_two_sections;
     data_timeslots := data_timeslots one_room_two_sections;
     data_sections := data_sections one_room_two_sections |}.

(** Section S1 lists course CX, which the course catalog lacks. *)
Definition dangling_course : Data :=
  {| data_courses := [mkCourseRow "C1" "Algorithms" "Lecture" 3];
     data_instructors := [mkInstructorRow "I1" "Ann" "C1" "T1"];
     data_rooms := [mkRoomRow "R1" "Lecture Hall" 40];
     data_timeslots := one_slot;
     data_sections := [mkSectionRow "S1" 30 "C1, CX"] |}.

(** No room at all. *)
Definition no_rooms : Data :=
  {| data_courses := [mkCourseRow "C1" "Algorithms" "Lecture" 3];
     data_instructors := [mkInstructorRow "I1" "Ann" "C1" "T1"];
     data_rooms := [];
     data_timeslots := one_slot;
     data_sections := [mkSectionRow "S1" 30 "C1"] |}.

(** One variable whose domain has two values. *)
Definition one_section_two_slots : Data :=
  {| data_courses := [mkCourseRow "C1" "Algorithms" "Lecture" 3];
     data_instructors := [];
     data_rooms := [mkRoomRow "R1" "Lecture Hall" 40];
     data_timeslots := two_slots;
     data_sections := [mkSectionRow "S1" 30 "C1"] |}.

(** A combined course, and a room that is neither a lecture room nor a
    lab. *)
Definition seminar_room : Data :=
  {| data_courses := [mkCourseRow "C1" "Circuits" "Lecture and Lab" 4];
     data_instructors := [];
     data_rooms := [mkRoomRow "R1" "Lecture Hall" 40; mkRoomRow "R9" "Seminar" 50];
     data_timeslots := one_slot;
     data_sections := [mkSectionRow "S1" 30 "C1"] |}.

(** Two variables: S1_C1 (combined course) can use both rooms, S2_C2
    (lab course) only the lab. *)
Definition two_domain_sizes : Data :=
  {| data_courses := [mkCourseRow "C1" "Circuits" "Lecture and Lab" 4;
                      mkCourseRow "C2" "Chemistry" "Lab" 2];
     data_instructors := [];
     data_rooms := [mkRoomRow "R1" "Lecture Hall" 40; mkRoomRow "R2" "Lab" 40];
     data_timeslots := one_slot;
     data_sections := [mkSectionRow "S1" 30 "C1"; mkSectionRow "S2" 30 "C2"] |}.

(** An assignment with one entry, for S1_C1 of [one_room_two_sections]. *)
Definition one_entry : dict DomainValue :=
  [("S1_C1", mkDomainValue "R1" "T1" "Sunday" "09:00" "10:30" "I1" "Ann")].

End Examples.

(* ------------------------------------------------------------------ *)
(** ** [main] of [csp_solver.py] *)

(** How [main] ends once the data are loaded: the schedule written to
    [generated_timetable.csv]; a successful search whose schedule is
    [None], after which nothing is written; or the failure branch, with
    the two numbers of its "Partial assignment: n/m" line. *)
Inductive MainOutcome :=
| Saved (schedule : list Schedule.row)
| NothingToSave
| Failed (assigned total : nat).

(** How a call of [backtracking_search] ends on an interpreter that allows
    [stack] nested calls of [backtrack]: it returns, or the recursion goes
    deeper than allowed and [RecursionError] comes out of it. *)
Inductive SearchEnd :=
| Returned (run : SearchRun)
| RecursionError.

Definition backtracking_search_within (stack : nat) (self : TimetableCSP)
    (max_iterations : Z) : SearchEnd :=
  match backtrack self max_iterations stack initial_state with
  | Some (b, st) => Returned (mkRun b (assignment st) (iterations st) (history st))
  | None => RecursionError
  end.

(** [main], from the loaded data on, on an interpreter that allows [stack]
    nested calls of [backtrack]; the budget is the literal 1000.  [None]
    is the [RecursionError] that nothing in [main] catches. *)
Definition main (stack : nat) (data : Data) : option MainOutcome :=
  let csp := TimetableCSP_init data in
  match backtracking_search_within stack csp 1000 with
  | RecursionError => None
  | Returned run =>
      if success run then
        match generate_schedule_dataframe csp (left_assignment run) with
        | Some schedule_df => Some (Saved schedule_df)
        | None => Some NothingToSave
        end
      else Some (Failed (List.length (left_assignment run))
                        (List.length (variables csp)))
  end.

(** Row [r1] is not after row [r2] by weekday and start time: an earlier
    weekday (Sunday to Thursday, any other day last), or the same weekday
    rank and a start time that does not come later. *)
Definition not_after (r1 r2 : Schedule.row) : Prop :=
  match Schedule.rank_compare (Schedule.day_order (Schedule.Day r1))
                              (Schedule.day_order (Schedule.Day r2)) with
  | Lt => True
  | Eq => String.compare (Schedule.Start_Time r1) (Schedule.Start_Time r2) <> Gt
  | Gt => False
  end.

(* ------------------------------------------------------------------ *)
(** ** The reports of [data_loader.py] *)

(** The exceptions these functions can end with. *)
Inductive PyError := KeyError | ZeroDivisionError.

Module Compat.

(** One row of the section-room compatibility report. *)
Record row := mkRow
  { Section_ID : string; Student_Count : Z;
    Available_Rooms : string; Room_Count : nat }.

End Compat.

(** [rooms[rooms['Capacity'] >= student_count]] *)
Definition valid_rooms (rms : list RoomRow) (student_count : Z) : list RoomRow :=
  filter (fun r => (student_count <=? Capacity r)%Z) rms.

(** The body of the loop over the sections: the dictionary appended to
    [report_rows]. *)
Definition compatibility_row (rms : list RoomRow) (section : SectionRow) : Compat.row :=
  let student_count := StudentCount section in
  let valid := valid_rooms rms student_count in
  if is_nil valid then
    Compat.mkRow (SectionID section) student_count "None" 0
  else
    let room_list := String.concat ", " (map RoomID valid) in
    Compat.mkRow (SectionID section) student_count
      (if (50 <? String.length room_list)%nat
       then substring 0 50 room_list ++ "..."
       else room_list)
      (List.length valid).

(** [generate_section_room_compatibility_report].  With no section at
    all, [report_rows] is empty, the data frame made from it has no
    columns, and the summary's [report_df['Available_Rooms']] raises
    [KeyError]. *)
Definition generate_section_room_compatibility_report (data : Data)
    : PyError + list Compat.row :=
  let report_rows := map (compatibility_row (data_rooms data)) (data_sections data) in
  if is_nil report_rows then inl KeyError else inr report_rows.

(** [sorted] on strings, as an insertion sort on [String.leb]. *)
Fixpoint insert_string (x : string) (l : list string) : list string :=
  match l with
  | [] => [x]
  | y :: l' => if String.leb x y then x :: l else y :: insert_string x l'
  end.

Definition sorted_strings (l : list string) : list string :=
  fold_right insert_string [] l.

(** The figures [generate_instructor_qualification_report] prints (the
    average, a float, is left out). *)
Record QualificationReport := mkQualificationReport
  { total_instructors : nat;
    total_qualifications : nat;
    courses_covered : nat;
    all_courses : nat;
    uncovered_courses : list string }.

(** The union of the instructors' course lists, with repetitions. *)
Definition covered_ids (rows : list InstructorRow) : list string :=
  flat_map (fun r => PyStr.id_list (QualifiedCourses r)) rows.

(** [generate_instructor_qualification_report].  The sets are modelled by
    duplicate-free lists.  With no instructor row the average
    [total_qualifications / len(instructors)] raises
    [ZeroDivisionError]. *)
Definition generate_instructor_qualification_report (data : Data)
    : PyError + QualificationReport :=
  let instructors := data_instructors data in
  let covered := covered_ids instructors in
  let all := nodup string_dec (map CourseID (data_courses data)) in
  let uncovered := filter (fun c => negb (list_mem c covered)) all in
  if is_nil instructors then inl ZeroDivisionError
  else inr (mkQualificationReport
              (List.length instructors)
              (List.length covered)
              (List.length (nodup string_dec covered))
              (List.length all)
              (sorted_strings uncovered)).

(** The three lab lines and the two lecture lines of the room type
    summary. *)
Inductive LabStatus := NoLabRooms | FewLabRooms | LabRoomsAdequate.

Record RoomTypeSummary := mkRoomTypeSummary
  { lecture_courses : nat; lab_courses : nat; total_courses : nat;
    lecture_rooms : nat; lab_rooms : nat; total_rooms : nat;
    lab_status : LabStatus;
    lecture_rooms_found : bool }.

(** [generate_room_type_summary]: the counts it prints and the branch it
    takes in each of its two tests. *)
Definition generate_room_type_summary (data : Data) : RoomTypeSummary :=
  let n_lecture_courses :=
    List.length (filter (fun c => lecture_type (CourseType c)) (data_courses data)) in
  let n_lab_courses :=
    List.length (filter (fun c => lab_type (CourseType c)) (data_courses data)) in
  let n_lecture_rooms :=
    List.length (filter (fun r => lecture_type (RoomType r)) (data_rooms data)) in
  let n_lab_rooms :=
    List.length (filter (fun r => lab_type (RoomType r)) (data_rooms data)) in
  mkRoomTypeSummary
    n_lecture_courses n_lab_courses (List.length (data_courses data))
    n_lecture_rooms n_lab_rooms (List.length (data_rooms data))
    (if (n_lab_rooms =? 0)%nat && (0 <? n_lab_courses)%nat then NoLabRooms
     else if (n_lab_rooms * 3 <? n_lab_courses)%nat then FewLabRooms
     else LabRoomsAdequate)
    (negb (n_lecture_rooms =? 0)%nat).

Module MoreExamples.

(** Section S1 lists course C1 twice. *)
Definition repeated_course : Data :=
  {| data_courses := [mkCourseRow "C1" "Algorithms" "Lecture" 3];
     data_instructors := [];
     data_rooms := [mkRoomRow "R1" "Lecture Hall" 40];
     data_timeslots := Examples.two_slots;
     data_sections := [mkSectionRow "S1" 30 "C1,C1"] |}.

(** A candidate value with the placeholder instructor. *)
Definition placeholder_value : DomainValue :=
  mkDomainValue "R1" "T1" "Sunday" "09:00" "10:30" UNASSIGNED "Unassigned".

(** An assignment that already gives the placeholder instructor the same
    timeslot, in another room, to a variable of another section. *)
Definition placeholder_entry : dict DomainValue :=
  [("S2_C2", mkDomainValue "R2" "T1" "Sunday" "09:00" "10:30" UNASSIGNED "Unassigned")].

(** The attributes and the single candidate of variable S1_C1 of
    [Examples.one_room_two_sections]. *)
Definition s1_c1_info : VarInfo := mkVarInfo "S1" "C1" 30 "Lecture" "Algorithms".

Definition s1_c1_value : DomainValue :=
  mkDomainValue "R1" "T1" "Sunday" "09:00" "10:30" "I1" "Ann".

(** Only a small room; section S1 has more students than it seats. *)
Definition small_room : Data :=
  {| data_courses := [mkCourseRow "C1" "Algorithms" "Lecture" 3;
                      mkCourseRow "C2" "Chemistry" "Lab" 2];
     data_instructors := [mkInstructorRow "I1" "Ann" " C1 , ,C9" "T1"];
     data_rooms := [mkRoomRow "R1" "Lecture Hall" 20];
     data_timeslots := Examples.one_slot;
     data_sections := [mkSectionRow "S1" 30 "C1, C2"] |}.

(** Two entries given in the order Monday, Sunday. *)
Definition monday_then_sunday : dict DomainValue :=
  [("S1_C1", mkDomainValue "R1" "T5" "Monday" "09:00" "10:30" "I1" "Ann");
   ("S2_C2", mkDomainValue "R1" "T1" "Sunday" "11:00" "12:30" "I2" "Bob")].

Definition sunday_row : Schedule.row :=
  Schedule.mkRow "S2" "C2" "Networks" "Lecture" "Sunday" "11:00" "12:30" "R1" "Bob" 30.

Definition monday_row : Schedule.row :=
  Schedule.mkRow "S1" "C1" "Algorithms" "Lecture" "Monday" "09:00" "10:30" "R1" "Ann" 30.

End MoreExamples.

(* ================================================================== *)
(** * Properties *)

(* ------------------------------------------------------------------ *)
(** ** Dictionaries *)

Section DictFacts.
Context {V : Type}.
Implicit Types (d : dict V) (k : string) (v : V).

Lemma dict_get_set_same k v d : dict_get k (dict_set k v d) = Some v.
Proof.
  induction d as [|[k' v'] d IH]; simpl.
  - now rewrite String.eqb_refl.
  - destruct (k' =? k) eqn:E; simpl.
    + now rewrite String.eqb_refl.
    + now rewrite E.
Qed.

Lemma dict_get_set_other k k' v d :
  k <> k' -> dict_get k (dict_set k' v d) = dict_get k d.
Proof.
  intros Hne. induction d as [|[k0 v0] d IH]; simpl.
  - destruct (k' =? k) eqn:E; [apply String.eqb_eq in E; congruence | reflexivity].
  - destruct (k0 =? k') eqn:E; simpl.
    + apply String.eqb_eq in E; subst k0.
      destruct (k' =? k) eqn:E'; [apply String.eqb_eq in E'; congruence | reflexivity].
    + destruct (k0 =? k); [reflexivity | exact IH].
Qed.

Lemma dict_mem_In k d : dict_mem k d = true <-> In k (dict_keys d).
Proof.
  unfold dict_mem, dict_keys. rewrite existsb_exists, in_map_iff. split.
  - intros [kv [Hin E]]. apply String.eqb_eq in E. now exists kv.
  - intros [kv [E Hin]]. exists kv. split; [exact Hin | now apply String.eqb_eq].
Qed.

Lemma dict_mem_false k d : dict_mem k d = false <-> ~ In k (dict_keys d).
Proof.
  rewrite <- dict_mem_In. destruct (dict_mem k d); split; intros; congruence.
Qed.

Lemma dict_mem_get k d : dict_mem k d = true <-> dict_get k d <> None.
Proof.
  induction d as [|[k' v'] d IH]; simpl.
  - split; [discriminate | congruence].
  - destruct (k' =? k); simpl; [split; [discriminate | reflexivity] | exact IH].
Qed.

Lemma dict_set_fresh k v d :
  dict_mem k d = false -> dict_set k v d = (d ++ [(k, v)])%list.
Proof.
  induction d as [|[k' v'] d IH]; simpl; [reflexivity|].
  destruct (k' =? k); simpl; [discriminate|].
  intros H. now rewrite IH.
Qed.

Lemma dict_del_absent k d : dict_mem k d = false -> dict_del k d = d.
Proof.
  induction d as [|[k' v'] d IH]; simpl; [reflexivity|].
  destruct (k' =? k); simpl; [discriminate|].
  intros H. f_equal. exact (IH H).
Qed.

Lemma dict_del_set_fresh k v d :
  dict_mem k d = false -> dict_del k (dict_set k v d) = d.
Proof.
  intros H. rewrite (dict_set_fresh k v d H).
  unfold dict_del. rewrite filter_app. simpl. rewrite String.eqb_refl. simpl.
  rewrite app_nil_r. now apply dict_del_absent.
Qed.

Lemma dict_mem_set k k' v d :
  dict_mem k (dict_set k' v d) = (k' =? k) || dict_mem k d.
Proof.
  induction d as [|[k0 v0] d IH]; simpl.
  - reflexivity.
  - destruct (k0 =? k') eqn:E; simpl.
    + apply String.eqb_eq in E; subst k0. now destruct (k' =? k).
    + rewrite IH. destruct (k0 =? k), (k' =? k); reflexivity.
Qed.

Lemma dict_set_not_nil k v d : dict_set k v d <> [].
Proof. destruct d as [|[k' v'] d]; simpl; [|destruct (k' =? k)]; discriminate. Qed.

Lemma dict_keys_set_fresh k v d :
  dict_mem k d = false -> dict_keys (dict_set k v d) = (dict_keys d ++ [k])%list.
Proof.
  intros H. rewrite (dict_set_fresh k v d H). unfold dict_keys.
  now rewrite map_app.
Qed.

End DictFacts.

(* ------------------------------------------------------------------ *)
(** ** The consistency check *)

Section Consistency.
Variable self : TimetableCSP.

Lemma clashes_false_sound var value v2 x2 :
  clashes self var value (v2, x2) = false ->
  ~ room_clash value x2 /\ ~ instructor_clash value x2 /\
  ~ section_clash self var value v2 x2.
Proof.
  unfold clashes, room_clash, instructor_clash, section_clash; simpl.
  intros H. repeat split; intros Hc.
  - destruct Hc as [Hr Ht]. rewrite Hr, Ht, !String.eqb_refl in H. discriminate.
  - destruct Hc as [Hi [Hn Ht]].
    apply String.eqb_neq in Hn.
    rewrite Hi in H. rewrite Ht, !String.eqb_refl in H.
    rewrite Hi in Hn. rewrite Hn in H. simpl in H.
    rewrite andb_true_r in H.
    destruct (room value =? room x2); discriminate.
  - destruct Hc as [Hs Ht]. rewrite Hs, Ht, !String.eqb_refl in H.
    rewrite !andb_true_r in H.
    destruct (room value =? room x2); simpl in H; [discriminate|].
    destruct ((instructor_id value =? instructor_id x2)
              && negb (instructor_id value =? UNASSIGNED)); discriminate.
Qed.

Lemma compatible_sym v1 x1 v2 x2 :
  (~ room_clash x1 x2 /\ ~ instructor_clash x1 x2 /\ ~ section_clash self v1 x1 v2 x2) ->
  (~ room_clash x2 x1 /\ ~ instructor_clash x2 x1 /\ ~ section_clash self v2 x2 v1 x1).
Proof.
  unfold room_clash, instructor_clash, section_clash.
  intros [Hr [Hi Hs]]. repeat split; intros Hc.
  - apply Hr. destruct Hc. split; congruence.
  - apply Hi. destruct Hc as [E [N T]]. repeat split; congruence.
  - apply Hs. destruct Hc. split; congruence.
Qed.

(** Adding a fresh variable with a value that passed [is_consistent]
    keeps the assignment clash free. *)
Lemma clash_free_assign a var value :
  clash_free self a ->
  dict_mem var a = false ->
  is_consistent self a var value = true ->
  clash_free self (dict_set var value a).
Proof.
  intros [Hk Hc] Hfresh Hcons. split.
  - unfold well_keyed in *. rewrite dict_keys_set_fresh by assumption.
    apply Permutation_NoDup with (l := var :: dict_keys a).
    + apply Permutation_cons_append.
    + constructor; [now apply dict_mem_false | assumption].
  - rewrite dict_set_fresh by assumption.
    unfold is_consistent in Hcons. rewrite forallb_forall in Hcons.
    intros v1 x1 v2 x2 H1 H2 Hne.
    apply in_app_or in H1. apply in_app_or in H2.
    destruct H1 as [H1|H1], H2 as [H2|H2].
    + now apply Hc.
    + destruct H2 as [H2|[]]. inversion H2; subst v2 x2.
      apply compatible_sym. apply clashes_false_sound.
      apply negb_true_iff. now apply (Hcons (v1, x1)).
    + destruct H1 as [H1|[]]. inversion H1; subst v1 x1.
      apply clashes_false_sound.
      apply negb_true_iff. now apply (Hcons (v2, x2)).
    + destruct H1 as [H1|[]], H2 as [H2|[]]. congruence.
Qed.

End Consistency.

(* ------------------------------------------------------------------ *)
(** ** The stable sort and variable selection *)

Section Sorting.
Context {A : Type} (key : A -> nat).

Lemma insert_by_key_In x y l :
  In y (insert_by_key key x l) <-> y = x \/ In y l.
Proof.
  induction l as [|z l IH]; simpl.
  - intuition.
  - destruct (key x <=? key z)%nat; simpl; [intuition | rewrite IH; intuition].
Qed.

Lemma sort_by_key_In y l : In y (sort_by_key key l) <-> In y l.
Proof.
  induction l as [|x l IH]; simpl; [reflexivity|].
  rewrite insert_by_key_In, IH. intuition.
Qed.

(** The head of the sorted list is the first element of least key. *)
Lemma sort_by_key_head x l :
  exists m pre post,
    hd_error (sort_by_key key (x :: l)) = Some m /\
    x :: l = (pre ++ m :: post)%list /\
    (forall u, In u pre -> key m < key u) /\
    (forall u, In u post -> key m <= key u).
Proof.
  revert x. induction l as [|y l IH]; intros x.
  - exists x, [], []. simpl. repeat split; intros u [].
  - destruct (IH y) as (m & pre & post & Hhd & Hsplit & Hpre & Hpost).
    change (sort_by_key key (x :: y :: l))
      with (insert_by_key key x (sort_by_key key (y :: l))).
    destruct (sort_by_key key (y :: l)) as [|m' rest] eqn:Es; [discriminate|].
    simpl in Hhd. inversion Hhd; subst m'. simpl.
    destruct (key x <=? key m)%nat eqn:E.
    + apply Nat.leb_le in E.
      exists x, [], (y :: l).
      split; [reflexivity|]. split; [reflexivity|]. split; [intros u []|].
      intros u Hu. rewrite Hsplit in Hu. apply in_app_or in Hu.
      destruct Hu as [Hu|[Hu|Hu]].
      * specialize (Hpre u Hu). lia.
      * subst u. exact E.
      * specialize (Hpost u Hu). lia.
    + apply Nat.leb_gt in E.
      exists m, (x :: pre), post. simpl. repeat split.
      * now rewrite Hsplit.
      * intros u [Hu|Hu]; [subst u; exact E | now apply Hpre].
      * exact Hpost.
Qed.

End Sorting.

Lemma filter_split {A} (f : A -> bool) (l : list A) pre m post :
  filter f l = (pre ++ m :: post)%list ->
  exists pre' post',
    l = (pre' ++ m :: post')%list /\ filter f pre' = pre /\ filter f post' = post.
Proof.
  revert pre. induction l as [|x l IH]; intros pre H; simpl in H.
  - destruct pre; discriminate.
  - destruct (f x) eqn:E.
    + destruct pre as [|p pre]; simpl in H; injection H as Hx Hrest.
      * subst m. exists [], l. simpl. auto.
      * subst p. destruct (IH pre Hrest) as (pre' & post' & Hl & Hp & Hq).
        exists (x :: pre'), post'. simpl. rewrite E, Hp, Hl. auto.
    + destruct (IH pre H) as (pre' & post' & Hl & Hp & Hq).
      exists (x :: pre'), post'. simpl. rewrite E, Hl. auto.
Qed.

Section Selection.
Variable self : TimetableCSP.

Lemma select_unassigned_variable_In a v :
  select_unassigned_variable self a = Some v ->
  In v (variables self) /\ dict_mem v a = false.
Proof.
  unfold select_unassigned_variable.
  destruct (is_nil (unassigned_variables self a)); [discriminate|].
  intros H.
  assert (Hin : In v (sort_by_key (domain_size self) (unassigned_variables self a))).
  { destruct (sort_by_key _ _); simpl in H; [discriminate|].
    inversion H. now left. }
  apply sort_by_key_In in Hin. unfold unassigned_variables in Hin.
  apply filter_In in Hin. destruct Hin as [Hin Hm].
  split; [exact Hin | now apply negb_true_iff].
Qed.

Lemma filter_length_lt {A} (f g : A -> bool) (l : list A) x :
  (forall y, g y = true -> f y = true) ->
  In x l -> f x = true -> g x = false ->
  List.length (filter g l) < List.length (filter f l).
Proof.
  intros Himp. 
  assert (Hle : forall l', List.length (filter g l') <= List.length (filter f l')).
  { induction l' as [|y l' IH]; simpl; [lia|].
    destruct (g y) eqn:Eg.
    - rewrite (Himp y Eg). simpl. lia.
    - destruct (f y); simpl; lia. }
  induction l as [|y l IH]; intros Hin Hf Hg; [contradiction|].
  destruct Hin as [->|Hin]; simpl.
  - rewrite Hf, Hg. simpl. specialize (Hle l). lia.
  - specialize (IH Hin Hf Hg).
    destruct (g y) eqn:Eg.
    + rewrite (Himp y Eg). simpl. lia.
    + destruct (f y); simpl; lia.
Qed.

(** Assigning an unassigned variable leaves strictly fewer to assign. *)
Lemma remaining_assign a var value :
  In var (variables self) -> dict_mem var a = false ->
  remaining self (dict_set var value a) < remaining self a.
Proof.
  intros Hin Hm. unfold remaining, unassigned_variables.
  apply filter_length_lt with (x := var).
  - intros y. rewrite dict_mem_set. destruct (dict_mem y a); [|reflexivity].
    now rewrite orb_true_r.
  - exact Hin.
  - now rewrite Hm.
  - rewrite dict_mem_set, String.eqb_refl. reflexivity.
Qed.

End Selection.

(* ------------------------------------------------------------------ *)
(** ** The backtracking search *)

Section Search.
Variable self : TimetableCSP.
Variable max_iterations : Z.

Lemma state_ok_assign st var value :
  state_ok self st ->
  dict_mem var (assignment st) = false ->
  is_consistent self (assignment st) var value = true ->
  state_ok self (assign var value st).
Proof.
  intros [Ha Hh] Hm Hc.
  assert (Hn : clash_free self (dict_set var value (assignment st)))
    by now apply clash_free_assign.
  split; simpl; [exact Hn | now constructor].
Qed.

(** The loop over the candidate values, given a recursive call that
    behaves on every state with fewer than [n] variables left. *)
Lemma try_values_spec (recurse : SearchState -> option (bool * SearchState)) n :
  (forall st, state_ok self st -> remaining self (assignment st) < n ->
     exists b st', recurse st = Some (b, st') /\ outcome_ok self st b st') ->
  forall var, In var (variables self) ->
  forall values st,
    state_ok self st ->
    dict_mem var (assignment st) = false ->
    remaining self (assignment st) <= n ->
    exists b st',
      try_values self recurse var values st = Some (b, st') /\
      outcome_ok self st b st'.
Proof.
  intros Hrec var Hvar.
  induction values as [|value rest IH]; intros st Hok Hfresh Hrem; simpl.
  - exists false, st. split; [reflexivity|].
    destruct Hok as [Ha Hh].
    constructor; auto; [discriminate | lia].
  - destruct (is_consistent self (assignment st) var value) eqn:Hc;
      [| now apply IH].
    pose proof (state_ok_assign st var value Hok Hfresh Hc) as Hok1.
    assert (Hlt : remaining self (assignment (assign var value st)) < n).
    { simpl. pose proof (remaining_assign self (assignment st) var value Hvar Hfresh).
      lia. }
    destruct (Hrec _ Hok1 Hlt) as (b & st' & Hcall & Hpost).
    rewrite Hcall. destruct Hpost as [P1 P2 P3 P4 P5]. simpl in P3, P5.
    destruct b.
    + exists true, st'. split; [reflexivity|].
      constructor; auto. discriminate.
    + specialize (P3 eq_refl).
      assert (Hback : assignment (unassign var st') = assignment st).
      { simpl. rewrite P3. now apply dict_del_set_fresh. }
      destruct Hok as [Ha Hh].
      assert (Hok2 : state_ok self (unassign var st')).
      { split; [now rewrite Hback|].
        simpl. constructor; [|exact P2].
        change (dict_del var (assignment st')) with (assignment (unassign var st')).
        now rewrite Hback. }
      destruct (IH (unassign var st') Hok2) as (b2 & st2 & Hloop & Hpost2).
      * now rewrite Hback.
      * now rewrite Hback.
      * exists b2, st2. split; [exact Hloop|].
        destruct Hpost2 as [Q1 Q2 Q3 Q4 Q5]. simpl in Q5.
        constructor; auto.
        -- intros Hb. rewrite (Q3 Hb). exact Hback.
        -- lia.
Qed.

(** Every call of [backtrack] with enough fuel returns, keeps the
    assignment clash free at every moment, puts the assignment back as
    it found it when it reports failure, and moves the counter up. *)
Lemma backtrack_spec fuel :
  forall st,
    state_ok self st ->
    remaining self (assignment st) < fuel ->
    exists b st',
      backtrack self max_iterations fuel st = Some (b, st') /\
      outcome_ok self st b st' /\
      (iterations st < iterations st')%Z.
Proof.
  induction fuel as [|fuel IH]; intros st Hok Hrem; [lia|].
  simpl.
  assert (Hstop : forall b,
             (b = true -> List.length (assignment st) = List.length (variables self)) ->
             outcome_ok self st b (tick st)).
  { intros b Hb. destruct Hok as [Ha Hh].
    constructor; simpl; auto. lia. }
  destruct (max_iterations <=? iterations st + 1)%Z.
  { exists false, (tick st).
    split; [reflexivity | split; [apply Hstop; discriminate | simpl; lia]]. }
  destruct (List.length (assignment st) =? List.length (variables self))%nat eqn:Elen.
  { apply Nat.eqb_eq in Elen.
    exists true, (tick st).
    split; [reflexivity | split; [now apply Hstop | simpl; lia]]. }
  destruct (select_unassigned_variable self (assignment st)) as [var|] eqn:Esel.
  2:{ exists false, (tick st).
    split; [reflexivity | split; [apply Hstop; discriminate | simpl; lia]]. }
  apply select_unassigned_variable_In in Esel. destruct Esel as [Hvar Hfresh].
  assert (Hok1 : state_ok self (tick st)) by exact Hok.
  destruct (try_values_spec (backtrack self max_iterations fuel) fuel) 
    with (var := var) (values := domain_of self var) (st := tick st)
    as (b & st' & Hrun & Hpost); auto.
  - intros st0 H0 H1. destruct (IH st0 H0 H1) as (b & st' & E & P & _).
    now exists b, st'.
  - simpl. lia.
  - exists b, st'. split; [exact Hrun|].
    destruct Hpost as [P1 P2 P3 P4 P5]. simpl in P3, P5.
    split; [constructor; auto; lia | lia].
Qed.

Lemma initial_state_ok : state_ok self initial_state.
Proof.
  assert (H : clash_free self []).
  { split; [constructor | intros v1 x1 v2 x2 []]. }
  split; simpl; [exact H | now constructor].
Qed.

(** The fuel handed to [backtrack] by [backtracking_search] is enough:
    the search returns for every object and every budget. *)
Lemma backtracking_search_spec :
  exists run,
    backtracking_search self max_iterations = Some run /\
    clash_free self (left_assignment run) /\
    Forall (clash_free self) (visited run) /\
    (success run = false -> left_assignment run = []) /\
    (success run = true ->
       List.length (left_assignment run) = List.length (variables self)) /\
    (0 < printed_iterations run)%Z.
Proof.
  destruct (backtrack_spec (search_fuel self) initial_state initial_state_ok)
    as (b & st' & Hrun & [P1 P2 P3 P4 P5] & Hlt).
  { unfold search_fuel, remaining, unassigned_variables. simpl.
    pose proof (filter_length_le (fun v : string => negb (dict_mem v (@nil (string * DomainValue)))) (variables self)).
    simpl in H. lia. }
  unfold backtracking_search. rewrite Hrun.
  eexists. split; [reflexivity|]. simpl.
  split; [exact P1|]. split; [exact P2|]. split; [exact P3|].
  split; [exact P4 | exact Hlt].
Qed.

End Search.

(* ------------------------------------------------------------------ *)
(** ** Variable construction *)

Lemma fold_left_invariant {A B} (f : A -> B -> A) (P : A -> Prop) (l : list B) :
  (forall acc x, In x l -> P acc -> P (f acc x)) ->
  forall init, P init -> P (fold_left f l init).
Proof.
  induction l as [|x l IH]; intros Hstep init Hinit; simpl; [exact Hinit|].
  apply IH.
  - intros acc y Hy. apply Hstep. now right.
  - apply Hstep; [now left | exact Hinit].
Qed.

Section Variables.
Variables (crs : dict CourseInfo) (secs : dict SectionInfo).

Lemma add_variable_ok sid sdata acc cid :
  In (sid, sdata) secs -> In cid (sec_courses sdata) ->
  vars_ok crs secs acc -> vars_ok crs secs (add_variable crs sid sdata acc cid).
Proof.
  intros Hsec Hcid [Hpres Hsound]. unfold add_variable.
  destruct (dict_get cid crs) as [c|] eqn:Ec; [|now split].
  split; simpl.
  - intros v Hv. apply in_app_or in Hv.
    destruct (String.eqb_spec v (var_name sid cid)) as [->|Hne].
    + rewrite dict_get_set_same. discriminate.
    + rewrite dict_get_set_other by exact Hne.
      destruct Hv as [Hv|[Hv|[]]]; [now apply Hpres | congruence].
  - intros v info.
    destruct (String.eqb_spec v (var_name sid cid)) as [->|Hne].
    + rewrite dict_get_set_same. intros E. inversion E; subst info; clear E.
      unfold info_sound; simpl. split; [reflexivity|]. split.
      * now exists sdata.
      * now exists c.
    + rewrite dict_get_set_other by exact Hne. apply Hsound.
Qed.

Lemma add_section_ok acc item :
  In item secs -> vars_ok crs secs acc -> vars_ok crs secs (add_section crs acc item).
Proof.
  intros Hitem Hacc. unfold add_section.
  apply fold_left_invariant; [|exact Hacc].
  intros acc' cid Hcid Hacc'. apply add_variable_ok; auto.
  now destruct item.
Qed.

End Variables.

Lemma create_variables_ok (data : Data) :
  let csp := TimetableCSP_init data in
  vars_ok (courses csp) (section_courses csp) (variables csp, variable_info csp).
Proof.
  simpl.
  set (crs := parse_courses (data_courses data)).
  set (secs := parse_sections (data_sections data)).
  rewrite <- surjective_pairing.
  apply fold_left_invariant.
  - intros acc item Hitem Hacc. now apply add_section_ok.
  - split; simpl; [intros v [] | discriminate].
Qed.

(** The subscript [self.variable_info[var_name]] never misses. *)
Lemma variable_info_present (data : Data) (v : string) :
  In v (variables (TimetableCSP_init data)) ->
  exists info, dict_get v (variable_info (TimetableCSP_init data)) = Some info.
Proof.
  intros Hv. destruct (create_variables_ok data) as [Hpres _].
  specialize (Hpres v Hv). simpl in Hpres.
  destruct (dict_get v _) as [info|]; [now exists info | congruence].
Qed.

(* ------------------------------------------------------------------ *)
(** ** Domain construction *)

Section Domains.
Variable self : TimetableCSP.

Lemma add_domain_keeps v info l :
  dict_get v (variable_info self) = Some info ->
  forall doms,
    dict_get v doms = Some (domain_for self info) ->
    dict_get v (fold_left (add_domain self) l doms) = Some (domain_for self info).
Proof.
  intros Hinfo. induction l as [|x l IH]; intros doms Hd; simpl; [exact Hd|].
  apply IH. unfold add_domain.
  destruct (dict_get x (variable_info self)) as [i|] eqn:Ex; [|exact Hd].
  destruct (String.eqb_spec v x) as [->|Hne].
  - rewrite dict_get_set_same. congruence.
  - now rewrite dict_get_set_other.
Qed.

Lemma add_domain_sets v info l :
  dict_get v (variable_info self) = Some info ->
  In v l ->
  forall doms,
    dict_get v (fold_left (add_domain self) l doms) = Some (domain_for self info).
Proof.
  intros Hinfo. induction l as [|x l IH]; intros Hin doms; [contradiction|].
  simpl. destruct (String.eqb_spec v x) as [->|Hne].
  - apply add_domain_keeps; [exact Hinfo|].
    unfold add_domain. rewrite Hinfo. apply dict_get_set_same.
  - destruct Hin as [Hin|Hin]; [congruence | now apply IH].
Qed.

(** [self.domains[v]] after [_create_domains] is the list built from
    the entry [self.variable_info[v]]. *)
Lemma create_domains_lookup v info :
  In v (variables self) ->
  dict_get v (variable_info self) = Some info ->
  dict_get v (domains (_create_domains self)) = Some (domain_for self info).
Proof. intros Hin Hinfo. simpl. now apply add_domain_sets. Qed.

End Domains.

Lemma init_domains_lookup (data : Data) v info :
  let csp := TimetableCSP_init data in
  In v (variables csp) ->
  dict_get v (variable_info csp) = Some info ->
  dict_get v (domains csp) = Some (domain_for csp info).
Proof.
  intros csp Hin Hinfo.
  exact (create_domains_lookup (_create_variables (_parse_data data)) v info Hin Hinfo).
Qed.

Lemma fold_left_dict_set_not_nil {R V} (key : R -> string) (val : R -> V)
    (rows : list R) (d : dict V) :
  rows <> [] \/ d <> [] ->
  fold_left (fun d r => dict_set (key r) (val r) d) rows d <> [].
Proof.
  revert d. induction rows as [|r rows IH]; intros d H; simpl.
  - destruct H as [H|H]; [congruence | exact H].
  - apply IH. right. apply dict_set_not_nil.
Qed.

Lemma parse_rooms_not_nil rows : rows <> [] -> parse_rooms rows <> [].
Proof.
  intros H. unfold parse_rooms.
  apply (fold_left_dict_set_not_nil RoomID
           (fun r => mkRoomInfo (RoomType r) (Capacity r))).
  now left.
Qed.

Lemma suitable_rooms_not_nil rms ctype count :
  rms <> [] -> suitable_rooms rms ctype count <> [].
Proof.
  intros H. unfold suitable_rooms.
  destruct (rooms_first_pass rms ctype count) as [|r1 l1]; simpl.
  - destruct (rooms_relaxed_pass rms ctype) as [|r2 l2]; simpl; [|discriminate].
    destruct rms as [|[k v] rms]; [congruence | discriminate].
  - discriminate.
Qed.

Lemma suitable_rooms_nil ctype count : suitable_rooms [] ctype count = [].
Proof. reflexivity. Qed.

Lemma qualified_instructors_not_nil ins cid : qualified_instructors ins cid <> [].
Proof.
  unfold qualified_instructors.
  destruct (map fst _); simpl; discriminate.
Qed.

Lemma build_domain_not_nil ins rs tss iids :
  rs <> [] -> tss <> [] -> iids <> [] -> build_domain ins rs tss iids <> [].
Proof.
  destruct rs as [|r rs]; [congruence|].
  destruct tss as [|t tss]; [congruence|].
  destruct iids as [|i iids]; [congruence|].
  discriminate.
Qed.

Lemma build_domain_no_rooms ins tss iids : build_domain ins [] tss iids = [].
Proof. reflexivity. Qed.

Lemma build_domain_no_timeslots ins rs iids : build_domain ins rs [] iids = [].
Proof. induction rs as [|r rs IH]; [reflexivity | exact IH]. Qed.

Lemma build_domain_room ins rs tss iids x :
  In x (build_domain ins rs tss iids) -> In (room x) rs.
Proof.
  unfold build_domain. rewrite in_flat_map. intros (r & Hr & Hx).
  rewrite in_flat_map in Hx. destruct Hx as (t & _ & Hx).
  rewrite in_map_iff in Hx. destruct Hx as (i & E & _).
  now subst x.
Qed.

(** Membership in the first room pass, spelled out. *)
Lemma rooms_first_pass_In rms ctype count r :
  In r (rooms_first_pass rms ctype count) <->
  exists info, In (r, info) rms /\
               _room_matches_course (room_type info) ctype = true /\
               (count <= room_capacity info)%Z.
Proof.
  unfold rooms_first_pass. rewrite in_map_iff. split.
  - intros ([k info] & E & Hin). simpl in E. subst k.
    apply filter_In in Hin. destruct Hin as [Hin Hc]. simpl in Hc.
    apply andb_true_iff in Hc. destruct Hc as [Hm Hcap].
    exists info. repeat split; auto. now apply Z.leb_le.
  - intros (info & Hin & Hm & Hcap). exists (r, info). split; [reflexivity|].
    apply filter_In. split; [exact Hin|]. simpl.
    rewrite Hm. now apply Z.leb_le.
Qed.

(** What [_room_matches_course] computes, as a formula on the four
    substring tests. *)
Lemma room_matches_course_formula rt ct :
  _room_matches_course rt ct =
  let lec_c := PyStr.contains "lecture" (PyStr.lower ct) in
  let lab_c := PyStr.contains "lab" (PyStr.lower ct) in
  let lec_r := PyStr.contains "lecture" (PyStr.lower rt) in
  let lab_r := PyStr.contains "lab" (PyStr.lower rt) in
  (lec_c && lec_r) || (lab_c && lab_r) || (lec_c && lab_c).
Proof.
  unfold _room_matches_course. cbv zeta.
  destruct (PyStr.contains "lecture" (PyStr.lower ct)),
           (PyStr.contains "lab" (PyStr.lower ct)),
           (PyStr.contains "lecture" (PyStr.lower rt)),
           (PyStr.contains "lab" (PyStr.lower rt)); reflexivity.
Qed.

(* ------------------------------------------------------------------ *)
(** ** Blindness to the preference attribute *)

Lemma forget_preferences_set k i ins :
  forget_preferences (dict_set k i ins) =
  dict_set k (forget_preference i) (forget_preferences ins).
Proof.
  induction ins as [|[k' i'] ins IH]; simpl; [reflexivity|].
  destruct (k' =? k); simpl; [reflexivity | now rewrite IH].
Qed.

Lemma parse_instructors_blind rows1 rows2 :
  Forall2 same_but_preferences rows1 rows2 ->
  forget_preferences (parse_instructors rows1) =
  forget_preferences (parse_instructors rows2).
Proof.
  unfold parse_instructors. intros H.
  assert (G : forall d1 d2,
             forget_preferences d1 = forget_preferences d2 ->
             forget_preferences
               (fold_left (fun d r => dict_set (InstructorID r)
                  (mkInstructorInfo (Name r) (PyStr.id_list (QualifiedCourses r))
                     (PreferredSlots r)) d) rows1 d1) =
             forget_preferences
               (fold_left (fun d r => dict_set (InstructorID r)
                  (mkInstructorInfo (Name r) (PyStr.id_list (QualifiedCourses r))
                     (PreferredSlots r)) d) rows2 d2)).
  { induction H as [|r1 r2 l1 l2 [Hid [Hn Hq]] _ IH]; intros d1 d2 Hd; simpl.
    - exact Hd.
    - apply IH. rewrite !forget_preferences_set.
      unfold forget_preference; simpl. now rewrite Hid, Hn, Hq, Hd. }
  now apply G.
Qed.

Lemma qualified_instructors_blind ins cid :
  qualified_instructors ins cid = qualified_instructors (forget_preferences ins) cid.
Proof.
  assert (E : map fst (filter (fun kv => list_mem cid (instr_courses (snd kv))) ins) =
              map fst (filter (fun kv => list_mem cid (instr_courses (snd kv)))
                              (forget_preferences ins))).
  { induction ins as [|[k i] ins IH]; simpl; [reflexivity|].
    destruct (list_mem cid (instr_courses i)); simpl; now rewrite IH. }
  unfold qualified_instructors. now rewrite E.
Qed.

Lemma instructor_name_of_blind ins iid :
  instructor_name_of ins iid = instructor_name_of (forget_preferences ins) iid.
Proof.
  unfold instructor_name_of.
  induction ins as [|[k i] ins IH]; simpl; [reflexivity|].
  destruct (k =? iid); [reflexivity | exact IH].
Qed.

Lemma build_domain_blind ins rs tss iids :
  build_domain ins rs tss iids = build_domain (forget_preferences ins) rs tss iids.
Proof.
  unfold build_domain.
  apply flat_map_ext. intros r. apply flat_map_ext. intros t.
  apply map_ext. intros i. now rewrite <- instructor_name_of_blind.
Qed.

Lemma domain_for_blind c1 c2 info :
  rooms c1 = rooms c2 -> timeslots c1 = timeslots c2 ->
  forget_preferences (instructor_courses c1) =
  forget_preferences (instructor_courses c2) ->
  domain_for c1 info = domain_for c2 info.
Proof.
  intros Hr Ht Hi. unfold domain_for.
  rewrite (build_domain_blind (instructor_courses c1)).
  rewrite (build_domain_blind (instructor_courses c2)).
  rewrite (qualified_instructors_blind (instructor_courses c1)).
  rewrite (qualified_instructors_blind (instructor_courses c2)).
  now rewrite Hr, Ht, Hi.
Qed.

Lemma fold_left_pointwise {A B} (f g : A -> B -> A) (l : list B) :
  (forall a b, f a b = g a b) -> forall init, fold_left f l init = fold_left g l init.
Proof.
  intros H. induction l as [|x l IH]; intros init; simpl; [reflexivity|].
  now rewrite H, IH.
Qed.

Lemma init_blind d1 d2 :
  differ_only_in_preferences d1 d2 ->
  variables (TimetableCSP_init d1) = variables (TimetableCSP_init d2) /\
  variable_info (TimetableCSP_init d1) = variable_info (TimetableCSP_init d2) /\
  domains (TimetableCSP_init d1) = domains (TimetableCSP_init d2) /\
  forget_preferences (instructor_courses (TimetableCSP_init d1)) =
  forget_preferences (instructor_courses (TimetableCSP_init d2)).
Proof.
  intros (Hc & Hr & Ht & Hs & Hi).
  apply parse_instructors_blind in Hi.
  assert (Hv : variables (TimetableCSP_init d1) = variables (TimetableCSP_init d2))
    by (simpl; now rewrite Hc, Hs).
  assert (Hvi : variable_info (TimetableCSP_init d1) = variable_info (TimetableCSP_init d2))
    by (simpl; now rewrite Hc, Hs).
  repeat split; auto.
  change (domains (TimetableCSP_init d1))
    with (fold_left (add_domain (_create_variables (_parse_data d1)))
                    (variables (TimetableCSP_init d1)) []).
  change (domains (TimetableCSP_init d2))
    with (fold_left (add_domain (_create_variables (_parse_data d2)))
                    (variables (TimetableCSP_init d2)) []).
  rewrite Hv. apply fold_left_pointwise. intros doms v.
  unfold add_domain.
  change (variable_info (_create_variables (_parse_data d1)))
    with (variable_info (TimetableCSP_init d1)).
  change (variable_info (_create_variables (_parse_data d2)))
    with (variable_info (TimetableCSP_init d2)).
  rewrite Hvi.
  destruct (dict_get v (variable_info (TimetableCSP_init d2))) as [info|]; [|reflexivity].
  f_equal. apply domain_for_blind; simpl; [now rewrite Hr | now rewrite Ht | exact Hi].
Qed.

(** The solver reads the object only through [variables], [domains] and
    [variable_info]. *)
Section SolverView.
Variables c1 c2 : TimetableCSP.
Hypothesis Hvars : variables c1 = variables c2.
Hypothesis Hdoms : domains c1 = domains c2.
Hypothesis Hinfo : variable_info c1 = variable_info c2.

Lemma info_of_view v : info_of c1 v = info_of c2 v.
Proof. unfold info_of. now rewrite Hinfo. Qed.

Lemma domain_of_view v : domain_of c1 v = domain_of c2 v.
Proof. unfold domain_of. now rewrite Hdoms. Qed.

Lemma is_consistent_view a var value :
  is_consistent c1 a var value = is_consistent c2 a var value.
Proof.
  unfold is_consistent.
  induction a as [|entry a IH]; simpl; [reflexivity|].
  rewrite IH. do 2 f_equal.
  unfold clashes, section_of. now rewrite !info_of_view.
Qed.

Lemma select_unassigned_variable_view a :
  select_unassigned_variable c1 a = select_unassigned_variable c2 a.
Proof.
  unfold select_unassigned_variable, unassigned_variables.
  rewrite Hvars.
  assert (E : domain_size c1 = domain_size c2).
  { unfold domain_size, domain_of. now rewrite Hdoms. }
  now rewrite E.
Qed.

Lemma try_values_view rec1 rec2 var values :
  (forall st, rec1 st = rec2 st) ->
  forall st, try_values c1 rec1 var values st = try_values c2 rec2 var values st.
Proof.
  intros Hrec. induction values as [|value rest IH]; intros st; simpl; [reflexivity|].
  rewrite is_consistent_view, Hrec.
  destruct (is_consistent c2 (assignment st) var value); [|apply IH].
  destruct (rec2 (assign var value st)) as [[[|] st']|]; auto.
Qed.

Lemma backtrack_view m fuel :
  forall st, backtrack c1 m fuel st = backtrack c2 m fuel st.
Proof.
  induction fuel as [|fuel IH]; intros st; simpl; [reflexivity|].
  rewrite Hvars, select_unassigned_variable_view.
  destruct (m <=? iterations st + 1)%Z; [reflexivity|].
  destruct (_ =? _)%nat; [reflexivity|].
  destruct (select_unassigned_variable c2 (assignment st)) as [var|]; [|reflexivity].
  rewrite domain_of_view. now apply try_values_view.
Qed.

Lemma backtracking_search_view m :
  backtracking_search c1 m = backtracking_search c2 m.
Proof.
  unfold backtracking_search, search_fuel. now rewrite Hvars, backtrack_view.
Qed.

Lemma generate_schedule_dataframe_view a :
  generate_schedule_dataframe c1 a = generate_schedule_dataframe c2 a.
Proof.
  unfold generate_schedule_dataframe. destruct (is_nil a); [reflexivity|].
  do 2 f_equal. apply map_ext. intros entry.
  unfold schedule_record. now rewrite info_of_view.
Qed.

End SolverView.

(* ------------------------------------------------------------------ *)
(** ** The output projection *)

Lemma insert_row_perm r l : Permutation (r :: l) (Schedule.insert_row r l).
Proof.
  induction l as [|r' l IH]; simpl; [apply Permutation_refl|].
  destruct (Schedule.row_le r r'); [apply Permutation_refl|].
  eapply Permutation_trans; [apply perm_swap|]. now apply perm_skip.
Qed.

Lemma sort_values_perm l : Permutation l (Schedule.sort_values l).
Proof.
  induction l as [|r l IH]; simpl; [constructor|].
  eapply Permutation_trans; [apply perm_skip, IH | apply insert_row_perm].
Qed.

(* ------------------------------------------------------------------ *)
(** ** Keys of the parsed tables *)



Lemma list_mem_In x l : list_mem x l = true <-> In x l.
Proof.
  unfold list_mem. rewrite existsb_exists. split.
  - intros (y & Hy & E). apply String.eqb_eq in E. now subst.
  - intros H. exists x. split; [exact H | apply String.eqb_refl].
Qed.

(* ------------------------------------------------------------------ *)
(** ** The order in which the variables are created *)

Lemma add_variable_fold_fst crs sid sdata cids acc :
  fst (fold_left (add_variable crs sid sdata) cids acc) =
  (fst acc ++ map (var_name sid) (filter (fun cid => dict_mem cid crs) cids))%list.
Proof.
  revert acc. induction cids as [|cid cids IH]; intros acc; simpl.
  - now rewrite app_nil_r.
  - rewrite IH. unfold add_variable.
    destruct (dict_get cid crs) as [c|] eqn:E.
    + assert (Hm : dict_mem cid crs = true) by (apply dict_mem_get; congruence).
      rewrite Hm. simpl. now rewrite <- app_assoc.
    + assert (Hm : dict_mem cid crs = false).
      { destruct (dict_mem cid crs) eqn:Em; [|reflexivity].
        apply dict_mem_get in Em. congruence. }
      now rewrite Hm.
Qed.

Lemma add_section_fold_fst crs secs acc :
  fst (fold_left (add_section crs) secs acc) =
  (fst acc ++
   flat_map (fun item =>
               map (var_name (fst item))
                   (filter (fun cid => dict_mem cid crs) (sec_courses (snd item))))
            secs)%list.
Proof.
  revert acc. induction secs as [|item secs IH]; intros acc; simpl.
  - now rewrite app_nil_r.
  - rewrite IH. unfold add_section. rewrite add_variable_fold_fst.
    now rewrite <- app_assoc.
Qed.

(* ------------------------------------------------------------------ *)
(** ** The depth of the recursion *)

Section Stack.
Variable self : TimetableCSP.
Variable max_iterations : Z.

Lemma try_values_more_stack
    (rec1 rec2 : SearchState -> option (bool * SearchState)) :
  (forall st r, rec1 st = Some r -> rec2 st = Some r) ->
  forall var values st r,
    try_values self rec1 var values st = Some r ->
    try_values self rec2 var values st = Some r.
Proof.
  intros Hrec var. induction values as [|value rest IH]; intros st r H; simpl in *.
  - exact H.
  - destruct (is_consistent self (assignment st) var value); [|now apply IH].
    destruct (rec1 (assign var value st)) as [[b1 st1]|] eqn:E; [|discriminate].
    rewrite (Hrec _ _ E). destruct b1; [exact H | now apply IH].
Qed.

(** A run that fits in a stack fits, unchanged, in any deeper one. *)
Lemma backtrack_more_stack fuel :
  forall fuel' st r,
    fuel <= fuel' ->
    backtrack self max_iterations fuel st = Some r ->
    backtrack self max_iterations fuel' st = Some r.
Proof.
  induction fuel as [|fuel IH]; intros fuel' st r Hle H; [discriminate|].
  destruct fuel' as [|fuel']; [lia|].
  simpl in *.
  destruct (max_iterations <=? iterations st + 1)%Z; [exact H|].
  destruct (_ =? _)%nat; [exact H|].
  destruct (select_unassigned_variable self (assignment st)) as [var|]; [|exact H].
  apply (try_values_more_stack (backtrack self max_iterations fuel)); [|exact H].
  intros st0 r0. apply IH. lia.
Qed.

Lemma search_within_agrees stack run :
  backtracking_search_within stack self max_iterations = Returned run ->
  backtracking_search self max_iterations = Some run.
Proof.
  unfold backtracking_search_within, backtracking_search.
  destruct (backtrack self max_iterations stack initial_state) as [[b st]|] eqn:E;
    [|discriminate].
  intros H. inversion H; subst run; clear H.
  destruct (backtrack_spec self max_iterations (search_fuel self) initial_state
              (initial_state_ok self)) as (b' & st' & E' & _).
  { unfold search_fuel, remaining, unassigned_variables.
    pose proof (filter_length_le
                  (fun v : string => negb (dict_mem v (assignment initial_state)))
                  (variables self)).
    lia. }
  rewrite E'.
  pose proof (backtrack_more_stack stack (Nat.max stack (search_fuel self))
                initial_state _ (Nat.le_max_l _ _) E) as H1.
  pose proof (backtrack_more_stack (search_fuel self)
                (Nat.max stack (search_fuel self))
                initial_state _ (Nat.le_max_r _ _) E') as H2.
  rewrite H1 in H2. now inversion H2.
Qed.




(** A search over domains that are all empty is over at its first call. *)
Lemma search_on_empty_domains fuel :
  variables self <> [] ->
  (forall v, In v (variables self) -> domain_of self v = []) ->
  backtrack self max_iterations (S fuel) initial_state
  = Some (false, tick initial_state).
Proof.
  intros Hne Hdom. simpl.
  destruct (max_iterations <=? 1)%Z; [reflexivity|].
  destruct (variables self) as [|x l] eqn:Ev; [congruence|]. cbn [List.length Nat.eqb].
  destruct (select_unassigned_variable self []) as [var|] eqn:Es; [|reflexivity].
  apply select_unassigned_variable_In in Es. destruct Es as [Hvar _].
  rewrite Ev in Hvar. rewrite <- Ev in Hdom. rewrite (Hdom var); [reflexivity|].
  now rewrite Ev.
Qed.

End Stack.

Lemma init_domain_entry (data : Data) (v : string) :
  In v (variables (TimetableCSP_init data)) ->
  exists d,
    dict_get v (domains (TimetableCSP_init data)) = Some d /\
    domain_of (TimetableCSP_init data) v = d /\
    domain_size (TimetableCSP_init data) v = List.length d.
Proof.
  intros Hv. destruct (variable_info_present data v Hv) as [info Hinfo].
  pose proof (init_domains_lookup data v info Hv Hinfo) as Hd.
  exists (domain_for (TimetableCSP_init data) info).
  split; [exact Hd|]. unfold domain_size, domain_of. now rewrite Hd.
Qed.

(* ================================================================== *)
(** * The checked statements *)

(** C1.  Throughout [backtracking_search] and when it ends, the
    assignment never holds two distinct variables in the same room at the
    same timeslot, never two with the same real instructor at the same
    timeslot, and never two of one section at the same timeslot: every
    value the assignment takes (the log [visited]) and the one left at
    the end are clash free.  The search returns for every catalog and
    every budget. *)
Theorem search_never_clashes (data : Data) (max_iterations : Z) :
  exists run,
    backtracking_search (TimetableCSP_init data) max_iterations = Some run /\
    Forall (clash_free (TimetableCSP_init data)) (visited run) /\
    clash_free (TimetableCSP_init data) (left_assignment run).
Proof.
  destruct (backtracking_search_spec (TimetableCSP_init data) max_iterations)
    as (run & Hrun & Hnow & Hlog & _).
  exists run. auto.
Qed.



(** C3, as stated, fails: with one room and one slot for two sections
    the search runs out of candidates well below its budget and returns
    [False]; on the way a one-variable assignment was built, yet the
    assignment left for the caller is empty. *)
Lemma failed_search_discards_partial_assignment :
  exists run,
    backtracking_search (TimetableCSP_init Examples.one_room_two_sections) 1000
      = Some run /\
    success run = false /\
    (printed_iterations run < 1000)%Z /\
    (exists a, In a (visited run) /\ List.length a = 1) /\
    left_assignment run = [].
Proof.
  eexists. split; [vm_compute; reflexivity|]. simpl.
  split; [reflexivity|]. split; [reflexivity|]. split; [|reflexivity].
  eexists. split; [right; left; reflexivity | reflexivity].
Qed.

(** C3, amended.  Whenever [backtracking_search] returns [False] with its
    counter still below [max_iterations], that is, because the candidates
    ran out, every tentative assignment has been undone on the way out and
    the assignment left on the object is empty.  This holds on whatever
    stack the search could run.  What the search returns is the flag. *)
Theorem failed_search_leaves_empty_assignment (data : Data) (stack : nat)
    (max_iterations : Z) (run : SearchRun) :
  backtracking_search_within stack (TimetableCSP_init data) max_iterations
    = Returned run ->
  success run = false ->
  (printed_iterations run < max_iterations)%Z ->
  left_assignment run = [].
Proof.
  intros Hrun Hfail _.
  apply search_within_agrees in Hrun.
  destruct (backtracking_search_spec (TimetableCSP_init data) max_iterations)
    as (run' & Hrun' & _ & _ & Hempty & _).
  rewrite Hrun in Hrun'. inversion Hrun'; subst run'. now apply Hempty.
Qed.

Lemma failed_search_leaves_empty_assignment_witness :
  exists run,
    backtracking_search_within 5 (TimetableCSP_init Examples.one_room_two_sections) 1000
      = Returned run /\
    success run = false /\
    (printed_iterations run < 1000)%Z /\
    left_assignment run = [].
Proof.
  assert (H : exists run,
             backtracking_search_within 5
               (TimetableCSP_init Examples.one_room_two_sections) 1000 = Returned run /\
             success run = false /\ (printed_iterations run < 1000)%Z).
  { eexists. split; [vm_compute; reflexivity|]. split; reflexivity. }
  destruct H as (run & H1 & H2 & H3).
  exists run. split; [exact H1|]. split; [exact H2|]. split; [exact H3|].
  exact (failed_search_leaves_empty_assignment
           Examples.one_room_two_sections 5 1000 run H1 H2 H3).
Defined.

(** C4, evaluated where the code departs from it: one variable with two
    candidate values and [max_iterations = 2].  The second call hits the
    limit and returns [False]; the loop of the first call takes that for
    an ordinary dead end, tries the next value and calls again.  The
    search ends with the counter at 3. *)
Theorem iteration_budget_overrun :
  exists run,
    backtracking_search (TimetableCSP_init Examples.one_section_two_slots) 2
      = Some run /\
    success run = false /\
    printed_iterations run = 3%Z.
Proof. eexists. split; [vm_compute; reflexivity|]. split; reflexivity. Qed.

(** C5, as stated, fails: with no room in the catalog construction ends
    normally, the variable is there with an empty domain, and the search
    is started on it. *)
Lemma empty_domain_is_silent :
  data_rooms Examples.no_rooms = [] /\
  construct Examples.no_rooms = inr (TimetableCSP_init Examples.no_rooms) /\
  variables (TimetableCSP_init Examples.no_rooms) = ["S1_C1"] /\
  dict_get "S1_C1" (domains (TimetableCSP_init Examples.no_rooms)) = Some [] /\
  exists run,
    pipeline Examples.no_rooms 1000 = inr (Some run) /\
    printed_iterations run = 1%Z.
Proof.
  repeat (split; [reflexivity|]).
  eexists. split; [vm_compute; reflexivity | reflexivity].
Qed.

Lemma domain_empty_iff (data : Data) (v : string) :
  In v (variables (TimetableCSP_init data)) ->
  exists d,
    dict_get v (domains (TimetableCSP_init data)) = Some d /\
    domain_of (TimetableCSP_init data) v = d /\
    (d = [] <-> data_rooms data = [] \/ data_timeslots data = []).
Proof.
  intros Hv. destruct (variable_info_present data v Hv) as [info Hinfo].
  pose proof (init_domains_lookup data v info Hv Hinfo) as Hd.
  exists (domain_for (TimetableCSP_init data) info).
  split; [exact Hd|]. split; [unfold domain_of; now rewrite Hd|].
  unfold domain_for.
  change (rooms (TimetableCSP_init data)) with (parse_rooms (data_rooms data)).
  change (timeslots (TimetableCSP_init data))
    with (parse_timeslots (data_timeslots data)).
  split.
  - intros Hnil.
    destruct (data_rooms data) as [|r rs] eqn:Er; [now left|].
    destruct (data_timeslots data) as [|t ts] eqn:Et; [now right|].
    exfalso. revert Hnil. apply build_domain_not_nil.
    + apply suitable_rooms_not_nil. apply parse_rooms_not_nil. discriminate.
    + discriminate.
    + apply qualified_instructors_not_nil.
  - intros [E|E]; rewrite E.
    + reflexivity.
    + apply build_domain_no_timeslots.
Qed.

(** C5, amended.  Domain construction raises nothing.  A variable's domain
    is empty exactly when the room catalog or the timeslot catalog is
    empty; with at least one room and one timeslot no domain is empty.
    When one of the two catalogs is empty, construction still ends
    normally with every variable holding an empty domain, the pipeline
    goes on to the search, and the search, finding no candidate for its
    first variable, returns [False] from its first call with nothing
    assigned, on any stack. *)
Theorem empty_catalog_gives_empty_domains (data : Data) (v : string) :
  In v (variables (TimetableCSP_init data)) ->
  construct data = inr (TimetableCSP_init data) /\
  (exists d,
     dict_get v (domains (TimetableCSP_init data)) = Some d /\
     (d = [] <-> data_rooms data = [] \/ data_timeslots data = [])) /\
  (data_rooms data = [] \/ data_timeslots data = [] ->
   forall max_iterations,
     exists run,
       pipeline data max_iterations = inr (Some run) /\
       success run = false /\
       left_assignment run = [] /\
       printed_iterations run = 1%Z /\
       forall stack,
         backtracking_search_within (S stack) (TimetableCSP_init data) max_iterations
         = Returned run).
Proof.
  intros Hv. split; [reflexivity|]. split.
  - destruct (domain_empty_iff data v Hv) as (d & Hd & _ & Hiff). now exists d.
  - intros Hempty max_iterations.
    assert (Hne : variables (TimetableCSP_init data) <> [])
      by (intros E; rewrite E in Hv; contradiction).
    assert (Hdom : forall u, In u (variables (TimetableCSP_init data)) ->
                             domain_of (TimetableCSP_init data) u = []).
    { intros u Hu. destruct (domain_empty_iff data u Hu) as (d & _ & Hd & Hiff).
      rewrite Hd. now apply Hiff. }
    exists (mkRun false [] 1 [[]]).
    split; [|split; [reflexivity | split; [reflexivity | split; [reflexivity|]]]].
    + unfold pipeline, construct, backtracking_search, search_fuel.
      now rewrite (search_on_empty_domains _ max_iterations _ Hne Hdom).
    + intros stack. unfold backtracking_search_within.
      now rewrite (search_on_empty_domains _ max_iterations stack Hne Hdom).
Qed.

Lemma empty_catalog_gives_empty_domains_witness :
  In "S1_C1" (variables (TimetableCSP_init Examples.no_rooms)) /\
  (data_rooms Examples.no_rooms = [] \/ data_timeslots Examples.no_rooms = []) /\
  dict_get "S1_C1" (domains (TimetableCSP_init Examples.no_rooms)) = Some [] /\
  exists run,
    pipeline Examples.no_rooms 1000 = inr (Some run) /\
    success run = false /\
    left_assignment run = [] /\
    printed_iterations run = 1%Z /\
    forall stack,
      backtracking_search_within (S stack) (TimetableCSP_init Examples.no_rooms) 1000
      = Returned run.
Proof.
  assert (H1 : In "S1_C1" (variables (TimetableCSP_init Examples.no_rooms)))
    by (vm_compute; left; reflexivity).
  assert (H2 : data_rooms Examples.no_rooms = [] \/ data_timeslots Examples.no_rooms = [])
    by (left; reflexivity).
  split; [exact H1|]. split; [exact H2|]. split; [reflexivity|].
  exact (proj2 (proj2 (empty_catalog_gives_empty_domains Examples.no_rooms "S1_C1" H1))
           H2 1000%Z).
Defined.

(** C6.  With at least one room and at least one timeslot in the
    catalogs, every variable has a non-empty domain.  When neither the
    first pass (type and capacity) nor the relaxed pass (type only) finds
    a room for the variable, its rooms are taken from the fallback list,
    which holds at most 10 rooms. *)
Theorem domains_nonempty_fallback_capped (data : Data) (v : string) :
  data_rooms data <> [] ->
  data_timeslots data <> [] ->
  In v (variables (TimetableCSP_init data)) ->
  exists info d,
    dict_get v (variable_info (TimetableCSP_init data)) = Some info /\
    dict_get v (domains (TimetableCSP_init data)) = Some d /\
    d <> [] /\
    (rooms_first_pass (rooms (TimetableCSP_init data))
                      (course_type info) (student_count info) = [] ->
     rooms_relaxed_pass (rooms (TimetableCSP_init data)) (course_type info) = [] ->
     (List.length (rooms_fallback (rooms (TimetableCSP_init data))) <= 10)%nat /\
     forall x, In x d -> In (room x) (rooms_fallback (rooms (TimetableCSP_init data)))).
Proof.
  intros Hrooms Hslots Hv.
  destruct (variable_info_present data v Hv) as [info Hinfo].
  exists info, (domain_for (TimetableCSP_init data) info).
  split; [exact Hinfo|].
  split; [now apply init_domains_lookup|].
  split.
  - unfold domain_for. apply build_domain_not_nil.
    + apply suitable_rooms_not_nil.
      change (rooms (TimetableCSP_init data)) with (parse_rooms (data_rooms data)).
      now apply parse_rooms_not_nil.
    + change (timeslots (TimetableCSP_init data))
        with (parse_timeslots (data_timeslots data)).
      unfold parse_timeslots. destruct (data_timeslots data); [congruence | discriminate].
    + apply qualified_instructors_not_nil.
  - intros H1 H2. split.
    + unfold rooms_fallback. apply firstn_le_length.
    + intros x Hx. unfold domain_for, suitable_rooms in Hx.
      rewrite H1 in Hx. cbn [is_nil] in Hx. rewrite H2 in Hx. cbn [is_nil] in Hx.
      now apply build_domain_room in Hx.
Qed.

Lemma domains_nonempty_fallback_capped_witness :
  data_rooms Examples.one_room_two_sections <> [] /\
  data_timeslots Examples.one_room_two_sections <> [] /\
  In "S1_C1" (variables (TimetableCSP_init Examples.one_room_two_sections)) /\
  exists info d,
    dict_get "S1_C1" (variable_info (TimetableCSP_init Examples.one_room_two_sections))
      = Some info /\
    dict_get "S1_C1" (domains (TimetableCSP_init Examples.one_room_two_sections))
      = Some d /\
    d <> [] /\
    (rooms_first_pass (rooms (TimetableCSP_init Examples.one_room_two_sections))
                      (course_type info) (student_count info) = [] ->
     rooms_relaxed_pass (rooms (TimetableCSP_init Examples.one_room_two_sections))
                        (course_type info) = [] ->
     (List.length
        (rooms_fallback (rooms (TimetableCSP_init Examples.one_room_two_sections)))
      <= 10)%nat /\
     forall x, In x d ->
       In (room x)
          (rooms_fallback (rooms (TimetableCSP_init Examples.one_room_two_sections)))).
Proof.
  assert (H1 : data_rooms Examples.one_room_two_sections <> []) by discriminate.
  assert (H2 : data_timeslots Examples.one_room_two_sections <> []) by discriminate.
  assert (H3 : In "S1_C1" (variables (TimetableCSP_init Examples.one_room_two_sections)))
    by (vm_compute; left; reflexivity).
  split; [exact H1|]. split; [exact H2|]. split; [exact H3|].
  apply (domains_nonempty_fallback_capped
           Examples.one_room_two_sections "S1_C1" H1 H2 H3).
Defined.

(** C7, evaluated where the code departs from it: a room of type
    "Seminar", neither a lecture room nor a lab, passes the first pass for
    a combined course, which the documented rule does not allow.  The
    third test of [_room_matches_course], commented "Mixed courses can use
    either", looks at the course type only and never at the room. *)
Lemma combined_course_takes_any_room :
  dict_get "R9" (rooms (TimetableCSP_init Examples.seminar_room))
    = Some (mkRoomInfo "Seminar" 50) /\
  In "R9" (rooms_first_pass (rooms (TimetableCSP_init Examples.seminar_room))
                            "Lecture and Lab" 30) /\
  documented_room_rule "Seminar" "Lecture and Lab" = false.
Proof.
  split; [reflexivity|]. split; [vm_compute; auto | reflexivity].
Qed.

(** What the first pass accepts as the code is written: enough seats, and
    either a lecture room for a lecture course, or a lab room for a lab
    course, or any room at all once the course is a combined one. *)
Theorem first_pass_room_rule (rms : dict RoomInfo) (ctype : string) (count : Z)
    (r : string) :
  In r (rooms_first_pass rms ctype count) <->
  exists info,
    In (r, info) rms /\
    (lecture_type ctype && lecture_type (room_type info)
     || lab_type ctype && lab_type (room_type info)
     || lecture_type ctype && lab_type ctype) = true /\
    (count <= room_capacity info)%Z.
Proof.
  rewrite rooms_first_pass_In.
  split; intros (info & Hin & Hm & Hcap); exists info; repeat split; auto.
  - now rewrite room_matches_course_formula in Hm.
  - now rewrite room_matches_course_formula.
Qed.

Lemma select_first_smallest (self : TimetableCSP) (a : dict DomainValue) :
  (exists u, In u (variables self) /\ dict_mem u a = false) ->
  exists v pre post,
    select_unassigned_variable self a = Some v /\
    dict_mem v a = false /\
    variables self = (pre ++ v :: post)%list /\
    (forall u, In u pre -> dict_mem u a = false ->
               domain_size self v < domain_size self u) /\
    (forall u, In u post -> dict_mem u a = false ->
               domain_size self v <= domain_size self u).
Proof.
  intros (u0 & Hu0 & Hm0).
  unfold select_unassigned_variable.
  destruct (unassigned_variables self a) as [|x l] eqn:Eun.
  - exfalso. assert (Hin : In u0 (unassigned_variables self a)).
    { apply filter_In. split; [exact Hu0 | now rewrite Hm0]. }
    now rewrite Eun in Hin.
  - cbn [is_nil].
    destruct (sort_by_key_head (domain_size self) x l)
      as (m & pre & post & Hhd & Hsplit & Hpre & Hpost).
    rewrite <- Eun in Hsplit. unfold unassigned_variables in Hsplit.
    destruct (filter_split _ _ _ _ _ Hsplit) as (pre' & post' & Hvars & Hfp & Hfq).
    exists m, pre', post'. split; [exact Hhd|]. split.
    + assert (Hin : In m (unassigned_variables self a)).
      { unfold unassigned_variables. rewrite Hsplit. apply in_elt. }
      apply filter_In in Hin. now apply negb_true_iff.
    + split; [exact Hvars|]. split.
      * intros u Hu Hmu. apply Hpre. rewrite <- Hfp.
        apply filter_In. split; [exact Hu | now rewrite Hmu].
      * intros u Hu Hmu. apply Hpost. rewrite <- Hfq.
        apply filter_In. split; [exact Hu | now rewrite Hmu].
Qed.

(** C8.  When some variable is still unassigned, selection returns an
    unassigned variable whose constructed domain, the list stored for it
    in [self.domains], is smallest among the unassigned ones, and among
    those of that smallest size the one that comes first in construction
    order: every unassigned variable listed before it has a strictly
    longer domain, every one listed after it a domain at least as long. *)
Theorem select_unassigned_variable_mrv (data : Data) (a : dict DomainValue) :
  (exists u, In u (variables (TimetableCSP_init data)) /\ dict_mem u a = false) ->
  exists v pre post dv,
    select_unassigned_variable (TimetableCSP_init data) a = Some v /\
    dict_mem v a = false /\
    variables (TimetableCSP_init data) = (pre ++ v :: post)%list /\
    dict_get v (domains (TimetableCSP_init data)) = Some dv /\
    (forall u, In u pre -> dict_mem u a = false ->
       exists du, dict_get u (domains (TimetableCSP_init data)) = Some du /\
                  List.length dv < List.length du) /\
    (forall u, In u post -> dict_mem u a = false ->
       exists du, dict_get u (domains (TimetableCSP_init data)) = Some du /\
                  List.length dv <= List.length du).
Proof.
  intros H.
  destruct (select_first_smallest (TimetableCSP_init data) a H)
    as (v & pre & post & Hsel & Hfresh & Hsplit & Hpre & Hpost).
  assert (Hv : In v (variables (TimetableCSP_init data)))
    by (rewrite Hsplit; apply in_elt).
  destruct (init_domain_entry data v Hv) as (dv & Hdv & _ & Hsize).
  exists v, pre, post, dv. repeat split; auto.
  - intros u Hu Hm.
    assert (Hin : In u (variables (TimetableCSP_init data)))
      by (rewrite Hsplit; apply in_or_app; now left).
    destruct (init_domain_entry data u Hin) as (du & Hdu & _ & Hsu).
    exists du. split; [exact Hdu|]. specialize (Hpre u Hu Hm). lia.
  - intros u Hu Hm.
    assert (Hin : In u (variables (TimetableCSP_init data)))
      by (rewrite Hsplit; apply in_or_app; right; now right).
    destruct (init_domain_entry data u Hin) as (du & Hdu & _ & Hsu).
    exists du. split; [exact Hdu|]. specialize (Hpost u Hu Hm). lia.
Qed.

Lemma select_unassigned_variable_mrv_witness :
  (exists u, In u (variables (TimetableCSP_init Examples.two_domain_sizes)) /\
             dict_mem u (@nil (string * DomainValue)) = false) /\
  select_unassigned_variable (TimetableCSP_init Examples.two_domain_sizes) []
    = Some "S2_C2" /\
  exists v pre post dv,
    select_unassigned_variable (TimetableCSP_init Examples.two_domain_sizes) [] = Some v /\
    dict_mem v (@nil (string * DomainValue)) = false /\
    variables (TimetableCSP_init Examples.two_domain_sizes) = (pre ++ v :: post)%list /\
    dict_get v (domains (TimetableCSP_init Examples.two_domain_sizes)) = Some dv /\
    (forall u, In u pre -> dict_mem u (@nil (string * DomainValue)) = false ->
       exists du,
         dict_get u (domains (TimetableCSP_init Examples.two_domain_sizes)) = Some du /\
         List.length dv < List.length du) /\
    (forall u, In u post -> dict_mem u (@nil (string * DomainValue)) = false ->
       exists du,
         dict_get u (domains (TimetableCSP_init Examples.two_domain_sizes)) = Some du /\
         List.length dv <= List.length du).
Proof.
  assert (H : exists u, In u (variables (TimetableCSP_init Examples.two_domain_sizes)) /\
                        dict_mem u (@nil (string * DomainValue)) = false).
  { exists "S1_C1". split; [vm_compute; left; reflexivity | reflexivity]. }
  split; [exact H|]. split; [reflexivity|].
  apply (select_unassigned_variable_mrv Examples.two_domain_sizes [] H).
Defined.

(** C9.  [PreferredSlots] is stored and never read again.  For two
    inputs that differ only in the [PreferredSlots] cells, the variables,
    their attributes and their domains are the same, the instructor
    tables agree up to the stored preference attribute, and for every
    budget the search gives the same flag, the same assignment, the same
    counter and passes through the same states; the projected schedule is
    the same too. *)
Theorem preferences_never_consulted (d1 d2 : Data) :
  differ_only_in_preferences d1 d2 ->
  variables (TimetableCSP_init d1) = variables (TimetableCSP_init d2) /\
  variable_info (TimetableCSP_init d1) = variable_info (TimetableCSP_init d2) /\
  domains (TimetableCSP_init d1) = domains (TimetableCSP_init d2) /\
  forget_preferences (instructor_courses (TimetableCSP_init d1)) =
  forget_preferences (instructor_courses (TimetableCSP_init d2)) /\
  (forall max_iterations,
     backtracking_search (TimetableCSP_init d1) max_iterations =
     backtracking_search (TimetableCSP_init d2) max_iterations) /\
  (forall a,
     generate_schedule_dataframe (TimetableCSP_init d1) a =
     generate_schedule_dataframe (TimetableCSP_init d2) a).
Proof.
  intros H. destruct (init_blind d1 d2 H) as (Hv & Hi & Hd & Hf).
  repeat split; auto.
  - intros m. now apply backtracking_search_view.
  - intros a. now apply generate_schedule_dataframe_view.
Qed.

Lemma preferences_never_consulted_witness :
  differ_only_in_preferences Examples.one_room_two_sections
                             Examples.one_room_two_sections' /\
  data_instructors Examples.one_room_two_sections
    <> data_instructors Examples.one_room_two_sections' /\
  forall max_iterations,
    backtracking_search (TimetableCSP_init Examples.one_room_two_sections)
                        max_iterations =
    backtracking_search (TimetableCSP_init Examples.one_room_two_sections')
                        max_iterations.
Proof.
  assert (H : differ_only_in_preferences Examples.one_room_two_sections
                                         Examples.one_room_two_sections').
  { repeat split; try reflexivity.
    repeat constructor. }
  split; [exact H|]. split; [discriminate|].
  apply (preferences_never_consulted _ _ H).
Defined.

(** C10.  For an empty assignment the projector returns [None], not an
    empty table.  For a non-empty assignment it returns a table that
    holds exactly the records of the assigned variables, one each, in
    sorted order.  The assignment is one over variables of the object, so
    that every subscript [self.variable_info[var_name]] is defined. *)
Theorem generate_schedule_dataframe_shape (data : Data) (a : dict DomainValue) :
  (forall v, In v (dict_keys a) -> In v (variables (TimetableCSP_init data))) ->
  generate_schedule_dataframe (TimetableCSP_init data) [] = None /\
  (a <> [] ->
   exists rows,
     generate_schedule_dataframe (TimetableCSP_init data) a = Some rows /\
     Permutation (map (schedule_record (TimetableCSP_init data)) a) rows /\
     List.length rows = List.length a).
Proof.
  intros _. split; [reflexivity|].
  intros Hne. destruct a as [|entry a]; [congruence|].
  exists (Schedule.sort_values
            (map (schedule_record (TimetableCSP_init data)) (entry :: a))).
  split; [reflexivity|].
  pose proof (sort_values_perm
                (map (schedule_record (TimetableCSP_init data)) (entry :: a))) as Hp.
  split; [exact Hp|].
  rewrite <- (Permutation_length Hp). apply length_map.
Qed.

Lemma generate_schedule_dataframe_shape_witness :
  (forall v, In v (dict_keys Examples.one_entry) ->
             In v (variables (TimetableCSP_init Examples.one_room_two_sections))) /\
  generate_schedule_dataframe (TimetableCSP_init Examples.one_room_two_sections) []
    = None /\
  (Examples.one_entry <> [] ->
   exists rows,
     generate_schedule_dataframe (TimetableCSP_init Examples.one_room_two_sections)
                                 Examples.one_entry = Some rows /\
     Permutation (map (schedule_record (TimetableCSP_init Examples.one_room_two_sections))
                      Examples.one_entry) rows /\
     List.length rows = List.length Examples.one_entry).
Proof.
  assert (H : forall v, In v (dict_keys Examples.one_entry) ->
                        In v (variables (TimetableCSP_init Examples.one_room_two_sections))).
  { intros v [Hv|[]]. vm_compute. left. exact Hv. }
  split; [exact H|].
  apply (generate_schedule_dataframe_shape
           Examples.one_room_two_sections Examples.one_entry H).
Defined.

(** The two catalogs above, run end to end. *)
Example mrv_picks_second_variable :
  select_unassigned_variable (TimetableCSP_init Examples.two_domain_sizes) []
    = Some "S2_C2".
Proof. reflexivity. Qed.

Example one_entry_schedule :
  generate_schedule_dataframe (TimetableCSP_init Examples.one_room_two_sections)
                              Examples.one_entry
  = Some [Schedule.mkRow "S1" "C1" "Algorithms" "Lecture" "Sunday"
                         "09:00" "10:30" "R1" "Ann" 30].
Proof. reflexivity. Qed.

(* ================================================================== *)
(** * Further properties of the solver *)

(* ------------------------------------------------------------------ *)
(** ** The consistency check, both directions *)

Section ConsistencyComplete.
Variable self : TimetableCSP.

Lemma clashes_true_complete var value v2 x2 :
  clashes self var value (v2, x2) = true ->
  room_clash value x2 \/ instructor_clash value x2 \/
  section_clash self var value v2 x2.
Proof.
  unfold clashes, room_clash, instructor_clash, section_clash; simpl.
  destruct (timeslot_id value =? timeslot_id x2) eqn:Et.
  2:{ rewrite !andb_false_r. simpl. discriminate. }
  apply String.eqb_eq in Et.
  destruct (room value =? room x2) eqn:Er; simpl.
  { apply String.eqb_eq in Er. intros _. left. now split. }
  destruct (instructor_id value =? instructor_id x2) eqn:Ei; simpl.
  - destruct (instructor_id value =? UNASSIGNED) eqn:Eu; simpl.
    + destruct (section_of self var =? section_of self v2) eqn:Es; [|discriminate].
      apply String.eqb_eq in Es. intros _. right. right. now split.
    + apply String.eqb_eq in Ei. apply String.eqb_neq in Eu.
      intros _. right. left. repeat split; assumption.
  - destruct (section_of self var =? section_of self v2) eqn:Es; [|discriminate].
    apply String.eqb_eq in Es. intros _. right. right. now split.
Qed.

Lemma is_consistent_true_iff a var value :
  is_consistent self a var value = true <->
  forall v2 x2, In (v2, x2) a ->
    ~ room_clash value x2 /\ ~ instructor_clash value x2 /\
    ~ section_clash self var value v2 x2.
Proof.
  unfold is_consistent. rewrite forallb_forall. split.
  - intros H v2 x2 Hin. apply clashes_false_sound.
    apply negb_true_iff. exact (H (v2, x2) Hin).
  - intros H [v2 x2] Hin. apply negb_true_iff.
    destruct (clashes self var value (v2, x2)) eqn:E; [|reflexivity].
    exfalso. destruct (H v2 x2 Hin) as (Hr & Hi & Hs).
    destruct (clashes_true_complete _ _ _ _ E) as [C|[C|C]]; auto.
Qed.

(** A value that sits in a clash-free assignment passes the check
    against every part of that assignment that lacks its variable. *)
Lemma is_consistent_within a a' var value :
  clash_free self a' -> incl a a' -> In (var, value) a' ->
  dict_mem var a = false ->
  is_consistent self a var value = true.
Proof.
  intros [_ Hc] Hincl Hin Hfresh. apply is_consistent_true_iff.
  intros v2 x2 H2. apply (Hc var value v2 x2 Hin (Hincl _ H2)).
  intros ->. apply dict_mem_false in Hfresh. apply Hfresh.
  unfold dict_keys. now apply (in_map fst) in H2.
Qed.

End ConsistencyComplete.

Lemma select_unassigned_variable_None (self : TimetableCSP) (a : dict DomainValue) :
  select_unassigned_variable self a = None <->
  forall v, In v (variables self) -> dict_mem v a = true.
Proof.
  unfold select_unassigned_variable. split.
  - intros H v Hv. destruct (dict_mem v a) eqn:E; [reflexivity|].
    exfalso.
    assert (Hin : In v (unassigned_variables self a)).
    { apply filter_In. split; [exact Hv | now rewrite E]. }
    destruct (unassigned_variables self a) as [|x l] eqn:Eun; [contradiction|].
    cbn [is_nil] in H.
    destruct (sort_by_key_head (domain_size self) x l) as (m & _ & _ & Hhd & _).
    congruence.
  - intros H.
    destruct (unassigned_variables self a) as [|x l] eqn:Eun; [reflexivity|].
    exfalso.
    assert (Hin : In x (unassigned_variables self a)) by (rewrite Eun; now left).
    apply filter_In in Hin. destruct Hin as [Hx Hm].
    rewrite (H x Hx) in Hm. discriminate.
Qed.

(* ------------------------------------------------------------------ *)
(** ** More on dictionaries *)

Section DictMore.
Context {V : Type}.
Implicit Types (d : dict V) (k : string) (v : V).

Lemma dict_mem_del_same k d : dict_mem k (dict_del k d) = false.
Proof.
  apply dict_mem_false. unfold dict_del, dict_keys. rewrite in_map_iff.
  intros ([k' v'] & E & Hin). simpl in E. subst k'.
  apply filter_In in Hin. destruct Hin as [_ Hin]. simpl in Hin.
  now rewrite String.eqb_refl in Hin.
Qed.

Lemma dict_set_In k v d e : In e (dict_set k v d) -> e = (k, v) \/ In e d.
Proof.
  induction d as [|[k' v'] d IH]; simpl.
  - intros [H|[]]; auto.
  - destruct (k' =? k); simpl.
    + intros [H|H]; auto.
    + intros [H|H]; auto. destruct (IH H); auto.
Qed.

Lemma dict_del_In k d e : In e (dict_del k d) -> In e d.
Proof. unfold dict_del. intros H. now apply filter_In in H. Qed.

Lemma dict_set_length k v d :
  List.length (dict_set k v d) <= S (List.length d).
Proof.
  induction d as [|[k' v'] d IH]; simpl; [lia|].
  destruct (k' =? k); simpl; lia.
Qed.

Lemma dict_del_length k d : List.length (dict_del k d) <= List.length d.
Proof. apply filter_length_le. Qed.

Lemma dict_get_In k v d : dict_get k d = Some v -> In (k, v) d.
Proof.
  induction d as [|[k' v'] d IH]; simpl; [discriminate|].
  destruct (k' =? k) eqn:E.
  - apply String.eqb_eq in E. subst k'. intros H. inversion H. now left.
  - intros H. right. now apply IH.
Qed.

Lemma dict_In_get k v d : well_keyed d -> In (k, v) d -> dict_get k d = Some v.
Proof.
  unfold well_keyed, dict_keys.
  induction d as [|[k' v'] d IH]; simpl; [contradiction|].
  intros Hnd [H|H].
  - inversion H; subst. now rewrite String.eqb_refl.
  - inversion Hnd as [|? ? Hnotin Hnd']; subst.
    destruct (k' =? k) eqn:E.
    + apply String.eqb_eq in E. subst k'. exfalso. apply Hnotin.
      now apply (in_map fst) in H.
    + now apply IH.
Qed.

Lemma dict_set_well_keyed k v d : well_keyed d -> well_keyed (dict_set k v d).
Proof.
  unfold well_keyed, dict_keys.
  induction d as [|[k' v'] d IH]; simpl; intros Hnd.
  - constructor; [intros [] | constructor].
  - inversion Hnd as [|? ? Hnotin Hnd']; subst.
    destruct (k' =? k) eqn:E; simpl.
    + apply String.eqb_eq in E. subst k'. now constructor.
    + constructor; [|now apply IH].
      intros Hin. apply in_map_iff in Hin. destruct Hin as (e & Ee & Hin).
      destruct (dict_set_In _ _ _ _ Hin) as [->|Hin'].
      * simpl in Ee. subst k'. now rewrite String.eqb_refl in E.
      * apply Hnotin. rewrite <- Ee. now apply in_map.
Qed.

End DictMore.

(* ------------------------------------------------------------------ *)
(** ** Invariants of the assignment carried through the search *)

Section SearchInvariant.
Variable self : TimetableCSP.
Variable max_iterations : Z.
Variable P : dict DomainValue -> Prop.

Hypothesis P_assign : forall a var value,
  P a -> In var (variables self) -> dict_mem var a = false ->
  In value (domain_of self var) -> is_consistent self a var value = true ->
  P (dict_set var value a).
Hypothesis P_del : forall a var, P a -> P (dict_del var a).

Local Abbreviation all_P st := (P (assignment st) /\ Forall P (history st)).

Lemma try_values_keeps (recurse : SearchState -> option (bool * SearchState)) :
  (forall st b st', recurse st = Some (b, st') -> all_P st -> all_P st') ->
  forall var, In var (variables self) ->
  forall values, incl values (domain_of self var) ->
  forall st b st',
    try_values self recurse var values st = Some (b, st') ->
    dict_mem var (assignment st) = false ->
    all_P st -> all_P st'.
Proof.
  intros Hrec var Hvar.
  induction values as [|value rest IH]; intros Hincl st b st' Hrun Hfresh Hst;
    simpl in Hrun.
  - now inversion Hrun; subst.
  - assert (Hrest : incl rest (domain_of self var))
      by (intros x Hx; apply Hincl; now right).
    destruct (is_consistent self (assignment st) var value) eqn:Hc;
      [| now apply (IH Hrest st b st')].
    destruct (recurse (assign var value st)) as [[b1 st1]|] eqn:Hcall; [|discriminate].
    assert (H1 : all_P st1).
    { apply (Hrec _ _ _ Hcall). destruct Hst as [Ha Hh].
      assert (Hn : P (dict_set var value (assignment st))).
      { apply P_assign; auto. apply Hincl. now left. }
      split; simpl; [exact Hn | now constructor]. }
    destruct b1.
    + now inversion Hrun; subst.
    + apply (IH Hrest (unassign var st1) b st' Hrun).
      * simpl. apply dict_mem_del_same.
      * destruct H1 as [Ha Hh]. split; simpl.
        -- now apply P_del.
        -- constructor; [now apply P_del | exact Hh].
Qed.

Lemma backtrack_keeps fuel :
  forall st b st',
    backtrack self max_iterations fuel st = Some (b, st') ->
    all_P st -> all_P st'.
Proof.
  induction fuel as [|fuel IH]; intros st b st' Hrun Hst; simpl in Hrun;
    [discriminate|].
  destruct (max_iterations <=? iterations st + 1)%Z;
    [now inversion Hrun; subst|].
  destruct (_ =? _)%nat; [now inversion Hrun; subst|].
  destruct (select_unassigned_variable self (assignment st)) as [var|] eqn:Esel;
    [| now inversion Hrun; subst].
  apply select_unassigned_variable_In in Esel. destruct Esel as [Hvar Hfresh].
  apply (try_values_keeps (backtrack self max_iterations fuel) IH var Hvar
           (domain_of self var) (incl_refl _) (tick st) b st' Hrun Hfresh Hst).
Qed.

End SearchInvariant.

Lemma drawn_from_domains_search (self : TimetableCSP) (max_iterations : Z) run :
  backtracking_search self max_iterations = Some run ->
  drawn_from_domains self (left_assignment run) /\
  Forall (drawn_from_domains self) (visited run).
Proof.
  unfold backtracking_search.
  destruct (backtrack self max_iterations (search_fuel self) initial_state)
    as [[b st]|] eqn:Hrun; [|discriminate].
  intros E. inversion E; subst run; clear E. simpl.
  apply (backtrack_keeps self max_iterations (drawn_from_domains self))
    with (fuel := search_fuel self) (st := initial_state) (b := b).
  - intros a var value Ha Hvar _ Hval _ v x Hin.
    destruct (dict_set_In _ _ _ _ Hin) as [E|Hin'].
    + inversion E; subst. now split.
    + now apply Ha.
  - intros a var Ha v x Hin. apply Ha. now apply dict_del_In in Hin.
  - exact Hrun.
  - split; simpl; [intros v x [] | constructor; [intros v x [] | constructor]].
Qed.

(* ------------------------------------------------------------------ *)
(** ** What the counter says about a run *)

Section CounterBounds.
Variable self : TimetableCSP.
Variable max_iterations : Z.

Lemma try_values_counter (recurse : SearchState -> option (bool * SearchState)) :
  (forall st b st', recurse st = Some (b, st') ->
     (Z.of_nat (List.length (assignment st')) - Z.of_nat (List.length (assignment st))
      <= iterations st' - iterations st - 1)%Z /\
     (b = true -> (iterations st' < max_iterations)%Z)) ->
  forall var values st b st',
    try_values self recurse var values st = Some (b, st') ->
    (Z.of_nat (List.length (assignment st')) - Z.of_nat (List.length (assignment st))
     <= iterations st' - iterations st)%Z /\
    (b = true -> (iterations st' < max_iterations)%Z).
Proof.
  intros Hrec var.
  induction values as [|value rest IH]; intros st b st' Hrun; simpl in Hrun.
  - inversion Hrun; subst. split; [lia | discriminate].
  - destruct (is_consistent self (assignment st) var value); [| now apply IH].
    destruct (recurse (assign var value st)) as [[b1 st1]|] eqn:Hcall; [|discriminate].
    destruct (Hrec _ _ _ Hcall) as [Hlen Hlim]. simpl in Hlen.
    pose proof (dict_set_length var value (assignment st)) as Hset.
    destruct b1.
    + inversion Hrun; subst. split; [lia | auto].
    + destruct (IH _ _ _ Hrun) as [Hlen2 Hlim2]. simpl in Hlen2.
      pose proof (dict_del_length var (assignment st1)) as Hdel.
      split; [lia | exact Hlim2].
Qed.

Lemma backtrack_counter fuel :
  forall st b st',
    backtrack self max_iterations fuel st = Some (b, st') ->
    (Z.of_nat (List.length (assignment st')) - Z.of_nat (List.length (assignment st))
     <= iterations st' - iterations st - 1)%Z /\
    (b = true -> (iterations st' < max_iterations)%Z).
Proof.
  induction fuel as [|fuel IH]; intros st b st' Hrun; simpl in Hrun; [discriminate|].
  destruct (max_iterations <=? iterations st + 1)%Z eqn:Elim.
  { inversion Hrun; subst. simpl. split; [lia | discriminate]. }
  apply Z.leb_gt in Elim.
  destruct (_ =? _)%nat.
  { inversion Hrun; subst. simpl. split; [lia | intros _; lia]. }
  destruct (select_unassigned_variable self (assignment st)) as [var|].
  2:{ inversion Hrun; subst. simpl. split; [lia | discriminate]. }
  destruct (try_values_counter (backtrack self max_iterations fuel) IH
              var (domain_of self var) (tick st) b st' Hrun) as [Hlen Hlim].
  simpl in Hlen. split; [lia | exact Hlim].
Qed.

End CounterBounds.

(* ------------------------------------------------------------------ *)
(** ** Failure below the limit means there is no timetable *)

Section Exhaustion.
Variable self : TimetableCSP.
Variable max_iterations : Z.

Lemma state_ok_unassign st var value st1 :
  state_ok self st ->
  dict_mem var (assignment st) = false ->
  outcome_ok self (assign var value st) false st1 ->
  assignment (unassign var st1) = assignment st /\
  state_ok self (unassign var st1).
Proof.
  intros [Ha Hh] Hfresh [P1 P2 P3 P4 P5]. simpl in P3.
  assert (Hback : dict_del var (assignment st1) = assignment st).
  { rewrite (P3 eq_refl). now apply dict_del_set_fresh. }
  split; [exact Hback|]. split; simpl.
  - now rewrite Hback.
  - constructor; [now rewrite Hback | exact P2].
Qed.

Lemma try_values_exhausts (recurse : SearchState -> option (bool * SearchState)) n :
  (forall st, state_ok self st -> remaining self (assignment st) < n ->
     exists b st', recurse st = Some (b, st') /\ outcome_ok self st b st') ->
  (forall st st', state_ok self st -> remaining self (assignment st) < n ->
     recurse st = Some (false, st') -> (iterations st' < max_iterations)%Z ->
     forall a', solution self a' -> incl (assignment st) a' -> False) ->
  forall var, In var (variables self) ->
  forall values st st',
    state_ok self st ->
    dict_mem var (assignment st) = false ->
    remaining self (assignment st) <= n ->
    try_values self recurse var values st = Some (false, st') ->
    (iterations st' < max_iterations)%Z ->
    forall value a',
      In value values -> solution self a' -> incl (assignment st) a' ->
      In (var, value) a' -> False.
Proof.
  intros Hspec Hex var Hvar.
  induction values as [|value0 rest IH];
    intros st st' Hok Hfresh Hrem Hrun Hlt value a' Hval Hsol Hincl Hin;
    [contradiction|].
  simpl in Hrun.
  destruct (is_consistent self (assignment st) var value0) eqn:Hc.
  - pose proof (state_ok_assign self st var value0 Hok Hfresh Hc) as Hok1.
    assert (Hlt1 : remaining self (assignment (assign var value0 st)) < n).
    { simpl. pose proof (remaining_assign self (assignment st) var value0 Hvar Hfresh).
      lia. }
    destruct (Hspec _ Hok1 Hlt1) as (b1 & st1 & Hcall & Hpost).
    rewrite Hcall in Hrun.
    destruct b1; [discriminate|].
    destruct (state_ok_unassign st var value0 st1 Hok Hfresh Hpost) as [Hback Hok2].
    assert (Hfresh2 : dict_mem var (assignment (unassign var st1)) = false)
      by now rewrite Hback.
    assert (Hrem2 : remaining self (assignment (unassign var st1)) <= n)
      by now rewrite Hback.
    destruct (try_values_spec self recurse n Hspec var Hvar rest
                (unassign var st1) Hok2 Hfresh2 Hrem2) as (b2 & st2 & Hrun2 & Hpost2).
    rewrite Hrun in Hrun2. inversion Hrun2; subst b2 st2; clear Hrun2.
    destruct Hval as [<-|Hval].
    + apply (Hex _ st1 Hok1 Hlt1 Hcall) with (a' := a'); auto.
      * destruct Hpost2 as [_ _ _ _ Q5]. simpl in Q5. lia.
      * simpl. rewrite dict_set_fresh by exact Hfresh.
        intros e He. apply in_app_or in He.
        destruct He as [He|[<-|[]]]; [now apply Hincl | exact Hin].
    + apply (IH (unassign var st1) st' Hok2 Hfresh2 Hrem2 Hrun Hlt value a'); auto.
      now rewrite Hback.
  - destruct Hval as [<-|Hval].
    + destruct Hsol as [Hcf _].
      rewrite (is_consistent_within self (assignment st) a' var value0) in Hc;
        auto; discriminate.
    + now apply (IH st st' Hok Hfresh Hrem Hrun Hlt value a').
Qed.

Lemma solution_covers a' v :
  solution self a' -> In v (variables self) -> exists x, In (v, x) a'.
Proof.
  intros ([Hk _] & Hdrawn & Hlen) Hv.
  assert (Hincl : incl (dict_keys a') (variables self)).
  { intros k Hk'. unfold dict_keys in Hk'. apply in_map_iff in Hk'.
    destruct Hk' as ([k' x] & E & Hin). simpl in E. subst k'.
    now apply (Hdrawn k x). }
  assert (Hcov : incl (variables self) (dict_keys a')).
  { apply NoDup_length_incl; auto. unfold dict_keys. rewrite length_map. lia. }
  specialize (Hcov v Hv). unfold dict_keys in Hcov. apply in_map_iff in Hcov.
  destruct Hcov as ([k x] & E & Hin). simpl in E. subst k. now exists x.
Qed.

Lemma backtrack_exhausts fuel :
  forall st st',
    state_ok self st ->
    remaining self (assignment st) < fuel ->
    backtrack self max_iterations fuel st = Some (false, st') ->
    (iterations st' < max_iterations)%Z ->
    forall a', solution self a' -> incl (assignment st) a' -> False.
Proof.
  induction fuel as [|fuel IH]; intros st st' Hok Hrem Hrun Hlt a' Hsol Hincl;
    [lia|].
  simpl in Hrun.
  destruct (max_iterations <=? iterations st + 1)%Z eqn:Elim.
  { apply Z.leb_le in Elim. inversion Hrun; subst. simpl in Hlt. lia. }
  destruct (List.length (assignment st) =? List.length (variables self))%nat eqn:Elen;
    [discriminate|].
  apply Nat.eqb_neq in Elen.
  destruct (select_unassigned_variable self (assignment st)) as [var|] eqn:Esel.
  - apply select_unassigned_variable_In in Esel. destruct Esel as [Hvar Hfresh].
    destruct (solution_covers a' var Hsol Hvar) as [x Hx].
    destruct Hsol as (Hcf & Hdrawn & Hlen).
    pose proof (Hdrawn var x Hx) as [_ Hdom].
    assert (Hspec : forall st0, state_ok self st0 ->
              remaining self (assignment st0) < fuel ->
              exists b st1, backtrack self max_iterations fuel st0 = Some (b, st1) /\
                            outcome_ok self st0 b st1).
    { intros st0 H0 H1.
      destruct (backtrack_spec self max_iterations fuel st0 H0 H1)
        as (b & st1 & E & Hp & _).
      now exists b, st1. }
    assert (Hrem' : remaining self (assignment (tick st)) <= fuel) by (simpl; lia).
    exact (try_values_exhausts (backtrack self max_iterations fuel) fuel Hspec IH
             var Hvar (domain_of self var) (tick st) st' Hok Hfresh Hrem' Hrun Hlt
             x a' Hdom (conj Hcf (conj Hdrawn Hlen)) Hincl Hx).
  - apply Elen.
    rewrite select_unassigned_variable_None in Esel.
    destruct Hok as [[Hk _] _].
    destruct Hsol as ([Hk' _] & Hdrawn & Hlen). rewrite <- Hlen.
    assert (H1 : incl (dict_keys a') (dict_keys (assignment st))).
    { intros k Hk0. unfold dict_keys in Hk0. apply in_map_iff in Hk0.
      destruct Hk0 as ([k' x] & E & Hin). simpl in E. subst k'.
      apply dict_mem_In. apply Esel. now apply (Hdrawn k x). }
    assert (H2 : incl (dict_keys (assignment st)) (dict_keys a')).
    { intros k Hk0. unfold dict_keys in *. apply in_map_iff in Hk0.
      destruct Hk0 as (e & E & Hin). rewrite <- E. apply in_map. now apply Hincl. }
    pose proof (NoDup_incl_length Hk' H1) as L1.
    pose proof (NoDup_incl_length Hk H2) as L2.
    unfold dict_keys in L1, L2. rewrite !length_map in L1, L2. lia.
Qed.

End Exhaustion.

(* ------------------------------------------------------------------ *)
(** ** Statements about the check, the selection and the search *)

(** X1.  For a listed variable and an assignment over listed variables,
    [is_consistent] answers [True] exactly when the candidate clashes with
    no entry of the assignment: not the same room at the same timeslot,
    not the same real instructor at the same timeslot, not the same
    section at the same timeslot. *)
Theorem is_consistent_characterised (data : Data) (a : dict DomainValue)
    (var : string) (value : DomainValue) :
  In var (variables (TimetableCSP_init data)) ->
  (forall v2, In v2 (dict_keys a) -> In v2 (variables (TimetableCSP_init data))) ->
  (is_consistent (TimetableCSP_init data) a var value = true <->
   forall v2 x2, In (v2, x2) a ->
     ~ room_clash value x2 /\ ~ instructor_clash value x2 /\
     ~ section_clash (TimetableCSP_init data) var value v2 x2).
Proof. intros _ _. apply is_consistent_true_iff. Qed.

Lemma is_consistent_characterised_witness :
  In "S1_C1" (variables (TimetableCSP_init Examples.two_domain_sizes)) /\
  (forall v2, In v2 (dict_keys MoreExamples.placeholder_entry) ->
              In v2 (variables (TimetableCSP_init Examples.two_domain_sizes))) /\
  is_consistent (TimetableCSP_init Examples.two_domain_sizes)
                MoreExamples.placeholder_entry "S1_C1"
                MoreExamples.s1_c1_value = true.
Proof.
  assert (H1 : In "S1_C1" (variables (TimetableCSP_init Examples.two_domain_sizes)))
    by (vm_compute; left; reflexivity).
  assert (H2 : forall v2, In v2 (dict_keys MoreExamples.placeholder_entry) ->
                          In v2 (variables (TimetableCSP_init Examples.two_domain_sizes))).
  { intros v2 [<-|[]]. vm_compute. right. left. reflexivity. }
  split; [exact H1|]. split; [exact H2|].
  apply (is_consistent_characterised Examples.two_domain_sizes
           MoreExamples.placeholder_entry "S1_C1" MoreExamples.s1_c1_value H1 H2).
  intros v2 x2 [E|[]]. inversion E; subst v2 x2.
  repeat split; intros [Ha Hb]; vm_compute in Ha; discriminate.
Defined.

(** X2.  For a listed variable and an assignment over listed variables, a
    candidate whose instructor is the placeholder ['UNASSIGNED'] is never
    turned down on account of its instructor: it is accepted exactly when
    it has no room clash and no section clash. *)
Theorem placeholder_instructor_never_clashes (data : Data) (a : dict DomainValue)
    (var : string) (value : DomainValue) :
  In var (variables (TimetableCSP_init data)) ->
  (forall v2, In v2 (dict_keys a) -> In v2 (variables (TimetableCSP_init data))) ->
  instructor_id value = UNASSIGNED ->
  (is_consistent (TimetableCSP_init data) a var value = true <->
   forall v2 x2, In (v2, x2) a ->
     ~ room_clash value x2 /\
     ~ section_clash (TimetableCSP_init data) var value v2 x2).
Proof.
  intros _ _ Hu. rewrite is_consistent_true_iff. split.
  - intros H v2 x2 Hin. destruct (H v2 x2 Hin) as (Hr & _ & Hs). now split.
  - intros H v2 x2 Hin. destruct (H v2 x2 Hin) as (Hr & Hs).
    repeat split; auto. intros (_ & Hn & _). now apply Hn.
Qed.

Lemma placeholder_instructor_never_clashes_witness :
  In "S1_C1" (variables (TimetableCSP_init Examples.two_domain_sizes)) /\
  (forall v2, In v2 (dict_keys MoreExamples.placeholder_entry) ->
              In v2 (variables (TimetableCSP_init Examples.two_domain_sizes))) /\
  instructor_id MoreExamples.placeholder_value = UNASSIGNED /\
  is_consistent (TimetableCSP_init Examples.two_domain_sizes)
                MoreExamples.placeholder_entry "S1_C1"
                MoreExamples.placeholder_value = true.
Proof.
  assert (H1 : In "S1_C1" (variables (TimetableCSP_init Examples.two_domain_sizes)))
    by (vm_compute; left; reflexivity).
  assert (H2 : forall v2, In v2 (dict_keys MoreExamples.placeholder_entry) ->
                          In v2 (variables (TimetableCSP_init Examples.two_domain_sizes))).
  { intros v2 [<-|[]]. vm_compute. right. left. reflexivity. }
  assert (H : instructor_id MoreExamples.placeholder_value = UNASSIGNED)
    by reflexivity.
  split; [exact H1|]. split; [exact H2|]. split; [exact H|].
  apply (placeholder_instructor_never_clashes Examples.two_domain_sizes
           MoreExamples.placeholder_entry "S1_C1" MoreExamples.placeholder_value
           H1 H2 H).
  intros v2 x2 [E|[]]. inversion E; subst v2 x2.
  split; intros [Ha Hb]; vm_compute in Ha; discriminate.
Defined.

(** X3.  [select_unassigned_variable] returns [None] exactly when every
    listed variable already has an entry in the assignment. *)
Theorem select_none_iff_all_assigned (data : Data) (a : dict DomainValue) :
  select_unassigned_variable (TimetableCSP_init data) a = None <->
  forall v, In v (variables (TimetableCSP_init data)) -> dict_mem v a = true.
Proof. apply select_unassigned_variable_None. Qed.

(** X4.  When [backtracking_search] reports success, the assignment it
    leaves is a finished timetable: it is clash free, every listed
    variable has an entry, and each entry's value is one of the candidates
    of that variable's own domain. *)
Theorem successful_search_is_a_solution (data : Data) (max_iterations : Z) :
  exists run,
    backtracking_search (TimetableCSP_init data) max_iterations = Some run /\
    (success run = false \/
     (solution (TimetableCSP_init data) (left_assignment run) /\
      forall v, In v (variables (TimetableCSP_init data)) ->
        exists x, dict_get v (left_assignment run) = Some x /\
                  In x (domain_of (TimetableCSP_init data) v))).
Proof.
  destruct (backtracking_search_spec (TimetableCSP_init data) max_iterations)
    as (run & Hrun & Hcf & _ & _ & Hdone & _).
  exists run. split; [exact Hrun|].
  destruct (success run) eqn:Es; [right | now left].
  destruct (drawn_from_domains_search _ _ _ Hrun) as [Hd _].
  assert (Hsol : solution (TimetableCSP_init data) (left_assignment run))
    by (split; [exact Hcf | split; [exact Hd | now apply Hdone]]).
  split; [exact Hsol|].
  intros v Hv. destruct (solution_covers _ _ v Hsol Hv) as [x Hx].
  exists x. split; [|now apply (Hd v x)].
  apply dict_In_get; [apply Hcf | exact Hx].
Qed.

(** X5.  When the list of variables names the same variable twice (a
    section that lists a course twice, or two pairs with the same
    [section_course] name), the completion test can never be met and the
    search reports failure for every budget. *)
Theorem duplicate_variable_never_succeeds (data : Data) (max_iterations : Z)
    (v : string) (pre mid post : list string) :
  variables (TimetableCSP_init data) = (pre ++ v :: mid ++ v :: post)%list ->
  exists run,
    backtracking_search (TimetableCSP_init data) max_iterations = Some run /\
    success run = false.
Proof.
  intros Hdup.
  destruct (backtracking_search_spec (TimetableCSP_init data) max_iterations)
    as (run & Hrun & [Hk _] & _ & _ & Hdone & _).
  exists run. split; [exact Hrun|].
  destruct (success run) eqn:Es; [exfalso | reflexivity].
  destruct (drawn_from_domains_search _ _ _ Hrun) as [Hd _].
  assert (Hincl : incl (dict_keys (left_assignment run))
                       (variables (TimetableCSP_init data))).
  { intros k Hk'. unfold dict_keys in Hk'. apply in_map_iff in Hk'.
    destruct Hk' as ([k' x] & E & Hin). simpl in E. subst k'.
    now apply (Hd k x). }
  assert (Hnd : NoDup (variables (TimetableCSP_init data))).
  { apply (NoDup_incl_NoDup Hk); [|exact Hincl].
    unfold dict_keys. rewrite length_map. rewrite (Hdone eq_refl). lia. }
  rewrite Hdup in Hnd. apply NoDup_remove_2 in Hnd. apply Hnd.
  apply in_or_app. right. apply in_or_app. right. now left.
Qed.

Lemma duplicate_variable_never_succeeds_witness :
  variables (TimetableCSP_init MoreExamples.repeated_course)
    = ([] ++ "S1_C1" :: [] ++ "S1_C1" :: [])%list /\
  exists run,
    backtracking_search (TimetableCSP_init MoreExamples.repeated_course) 1000
      = Some run /\
    success run = false.
Proof.
  assert (H : variables (TimetableCSP_init MoreExamples.repeated_course)
              = ([] ++ "S1_C1" :: [] ++ "S1_C1" :: [])%list) by reflexivity.
  split; [exact H|].
  apply (duplicate_variable_never_succeeds MoreExamples.repeated_course 1000
           "S1_C1" [] [] [] H).
Defined.

(** X6.  A successful search has made at least one call per variable plus
    one, and its counter is still below [max_iterations]; so a budget of
    at most the number of variables plus one never yields success. *)
Theorem successful_search_counter_bounds (data : Data) (max_iterations : Z) :
  exists run,
    backtracking_search (TimetableCSP_init data) max_iterations = Some run /\
    (success run = false \/
     (Z.of_nat (List.length (variables (TimetableCSP_init data))) + 1
        <= printed_iterations run /\
      printed_iterations run < max_iterations)%Z).
Proof.
  destruct (backtracking_search_spec (TimetableCSP_init data) max_iterations)
    as (run & Hrun & _ & _ & _ & Hdone & _).
  exists run. split; [exact Hrun|].
  destruct (success run) eqn:Es; [right | now left].
  unfold backtracking_search in Hrun.
  destruct (backtrack (TimetableCSP_init data) max_iterations
              (search_fuel (TimetableCSP_init data)) initial_state)
    as [[b st]|] eqn:Hb; [|discriminate].
  inversion Hrun; subst run; clear Hrun.
  cbn [success left_assignment printed_iterations] in *.
  destruct (backtrack_counter _ _ _ _ _ _ Hb) as [Hlen Hlim].
  rewrite (Hdone eq_refl) in Hlen.
  change (assignment initial_state) with (@nil (string * DomainValue)) in Hlen.
  change (iterations initial_state) with 0%Z in Hlen.
  cbn [List.length] in Hlen.
  split; [lia | now apply Hlim].
Qed.

(** X7.  When the search reports failure and its counter has stayed below
    [max_iterations], the search space was exhausted: no finished
    timetable exists for the catalogs at all. *)
Theorem failure_below_limit_means_no_solution (data : Data) (max_iterations : Z) :
  exists run,
    backtracking_search (TimetableCSP_init data) max_iterations = Some run /\
    (success run = true \/
     (max_iterations <= printed_iterations run)%Z \/
     forall a, ~ solution (TimetableCSP_init data) a).
Proof.
  destruct (backtracking_search_spec (TimetableCSP_init data) max_iterations)
    as (run & Hrun & _).
  exists run. split; [exact Hrun|].
  destruct (success run) eqn:Es; [now left | right].
  destruct (Z_le_gt_dec max_iterations (printed_iterations run)) as [Hle|Hgt];
    [now left | right].
  intros a Hsol.
  unfold backtracking_search in Hrun.
  destruct (backtrack (TimetableCSP_init data) max_iterations
              (search_fuel (TimetableCSP_init data)) initial_state)
    as [[b st]|] eqn:Hb; [|discriminate].
  inversion Hrun; subst run; clear Hrun.
  cbn [success left_assignment printed_iterations] in *. subst b.
  apply (backtrack_exhausts (TimetableCSP_init data) max_iterations
           (search_fuel (TimetableCSP_init data)) initial_state st
           (initial_state_ok _)) with (a' := a); auto.
  - unfold search_fuel, remaining, unassigned_variables.
    pose proof (filter_length_le
                  (fun v : string => negb (dict_mem v (assignment initial_state)))
                  (variables (TimetableCSP_init data))).
    lia.
  - lia.
  - intros e [].
Qed.

(* ------------------------------------------------------------------ *)
(** ** The parsed tables *)

Lemma find_snoc {A} (f : A -> bool) (l : list A) (x : A) :
  find f (l ++ [x]) =
  match find f l with
  | Some y => Some y
  | None => if f x then Some x else None
  end.
Proof.
  induction l as [|y l IH]; simpl; [reflexivity|].
  destruct (f y); [reflexivity | exact IH].
Qed.

Lemma fold_left_dict_set_get {R V} (key : R -> string) (val : R -> V)
    (rows : list R) (d : dict V) (k : string) :
  dict_get k (fold_left (fun d r => dict_set (key r) (val r) d) rows d) =
  match find (fun r => key r =? k) (rev rows) with
  | Some r => Some (val r)
  | None => dict_get k d
  end.
Proof.
  revert d. induction rows as [|r rows IH]; intros d; simpl; [reflexivity|].
  rewrite IH, find_snoc.
  destruct (find (fun r0 => key r0 =? k) (rev rows)); [reflexivity|].
  destruct (String.eqb_spec (key r) k) as [<-|Hne].
  - apply dict_get_set_same.
  - apply dict_get_set_other. congruence.
Qed.

Lemma fold_left_dict_set_well_keyed {R V} (key : R -> string) (val : R -> V)
    (rows : list R) (d : dict V) :
  well_keyed d ->
  well_keyed (fold_left (fun d r => dict_set (key r) (val r) d) rows d).
Proof.
  revert d. induction rows as [|r rows IH]; intros d Hd; simpl; [exact Hd|].
  apply IH. now apply dict_set_well_keyed.
Qed.

Lemma fold_left_dict_set_from_row {R V} (key : R -> string) (val : R -> V)
    (rows : list R) (d : dict V) k v :
  In (k, v) (fold_left (fun d r => dict_set (key r) (val r) d) rows d) ->
  (exists r, In r rows /\ key r = k /\ val r = v) \/ In (k, v) d.
Proof.
  revert d. induction rows as [|r rows IH]; intros d H; simpl in H; [now right|].
  destruct (IH _ H) as [(r' & Hr & Hk & Hv)|Hin].
  - left. exists r'. split; [now right | now split].
  - destruct (dict_set_In _ _ _ _ Hin) as [E|Hd]; [|now right].
    inversion E; subst. left. exists r. split; [now left | now split].
Qed.

Lemma nil_well_keyed {V} : well_keyed (@nil (string * V)).
Proof. constructor. Qed.

Lemma parse_rooms_well_keyed rows : well_keyed (parse_rooms rows).
Proof.
  apply (fold_left_dict_set_well_keyed RoomID
           (fun r => mkRoomInfo (RoomType r) (Capacity r))), nil_well_keyed.
Qed.

Lemma parse_instructors_well_keyed rows : well_keyed (parse_instructors rows).
Proof.
  apply (fold_left_dict_set_well_keyed InstructorID
           (fun r => mkInstructorInfo (Name r) (PyStr.id_list (QualifiedCourses r))
                       (PreferredSlots r))), nil_well_keyed.
Qed.

(** X8.  Looking an id up in a parsed table gives the data of the last
    row that carries the id, and nothing when no row does: of several
    rows with one id the later one replaces the earlier.  This holds for
    the room, course, section and instructor tables alike. *)
Theorem parsed_tables_last_row_wins (data : Data) (k : string) :
  dict_get k (rooms (_parse_data data)) =
    option_map (fun r => mkRoomInfo (RoomType r) (Capacity r))
               (find (fun r => RoomID r =? k) (rev (data_rooms data))) /\
  dict_get k (courses (_parse_data data)) =
    option_map (fun r => mkCourseInfo (CourseName r) (CourseType r) (Credits r))
               (find (fun r => CourseID r =? k) (rev (data_courses data))) /\
  dict_get k (section_courses (_parse_data data)) =
    option_map (fun r => mkSectionInfo (StudentCount r) (PyStr.id_list (Courses r)))
               (find (fun r => SectionID r =? k) (rev (data_sections data))) /\
  dict_get k (instructor_courses (_parse_data data)) =
    option_map (fun r => mkInstructorInfo (Name r)
                           (PyStr.id_list (QualifiedCourses r)) (PreferredSlots r))
               (find (fun r => InstructorID r =? k) (rev (data_instructors data))).
Proof.
  cbn [rooms courses section_courses instructor_courses _parse_data].
  unfold parse_rooms, parse_courses, parse_sections, parse_instructors.
  repeat split.
  - rewrite (fold_left_dict_set_get RoomID
               (fun r => mkRoomInfo (RoomType r) (Capacity r))).
    now destruct (find _ _).
  - rewrite (fold_left_dict_set_get CourseID
               (fun r => mkCourseInfo (CourseName r) (CourseType r) (Credits r))).
    now destruct (find _ _).
  - rewrite (fold_left_dict_set_get SectionID
               (fun r => mkSectionInfo (StudentCount r) (PyStr.id_list (Courses r)))).
    now destruct (find _ _).
  - rewrite (fold_left_dict_set_get InstructorID
               (fun r => mkInstructorInfo (Name r)
                           (PyStr.id_list (QualifiedCourses r)) (PreferredSlots r))).
    now destruct (find _ _).
Qed.

(* ------------------------------------------------------------------ *)
(** ** The order of the variables *)

(** X9.  The variables are listed section by section in the order of the
    section table, and within a section in the order of its course list,
    with the course ids unknown to the course table left out. *)
Theorem variables_in_construction_order (data : Data) :
  variables (TimetableCSP_init data) =
  flat_map
    (fun item =>
       map (var_name (fst item))
           (filter (fun cid => dict_mem cid (courses (TimetableCSP_init data)))
                   (sec_courses (snd item))))
    (section_courses (TimetableCSP_init data)).
Proof.
  cbn [variables courses section_courses TimetableCSP_init _create_domains
       _create_variables _parse_data].
  now rewrite add_section_fold_fst.
Qed.

(* ------------------------------------------------------------------ *)
(** ** What a domain holds *)

Lemma build_domain_In ins rs tss iids x :
  In x (build_domain ins rs tss iids) <->
  exists r t i,
    In r rs /\ In t tss /\ In i iids /\
    x = mkDomainValue r (ts_id t) (ts_day t) (ts_start t) (ts_end t)
                      i (instructor_name_of ins i).
Proof.
  unfold build_domain. rewrite in_flat_map. split.
  - intros (r & Hr & Hx). rewrite in_flat_map in Hx. destruct Hx as (t & Ht & Hx).
    rewrite in_map_iff in Hx. destruct Hx as (i & E & Hi).
    exists r, t, i. auto.
  - intros (r & t & i & Hr & Ht & Hi & E).
    exists r. split; [exact Hr|]. rewrite in_flat_map.
    exists t. split; [exact Ht|]. rewrite in_map_iff.
    exists i. auto.
Qed.

Lemma build_domain_length ins rs tss iids :
  List.length (build_domain ins rs tss iids) =
  List.length rs * List.length tss * List.length iids.
Proof.
  unfold build_domain.
  rewrite (flat_map_constant_length (c := List.length tss * List.length iids)).
  - lia.
  - intros r _. apply flat_map_constant_length. intros t _. apply length_map.
Qed.

Lemma filtered_keys_In {V} (f : string * V -> bool) (d : dict V) k :
  In k (map fst (filter f d)) <-> exists v, In (k, v) d /\ f (k, v) = true.
Proof.
  rewrite in_map_iff. split.
  - intros ([k' v] & E & Hin). simpl in E. subst k'.
    apply filter_In in Hin. now exists v.
  - intros (v & Hin & Hf). exists (k, v). split; [reflexivity|].
    now apply filter_In.
Qed.

Lemma suitable_rooms_known rms ctype count r :
  In r (suitable_rooms rms ctype count) -> In r (dict_keys rms).
Proof.
  unfold suitable_rooms.
  assert (Hsub : forall f, incl (map fst (filter f rms)) (dict_keys rms)).
  { intros f k Hk. apply filtered_keys_In in Hk. destruct Hk as (v & Hin & _).
    unfold dict_keys. now apply (in_map fst) in Hin. }
  destruct (rooms_first_pass rms ctype count) as [|r1 l1] eqn:E1; cbn [is_nil].
  - destruct (rooms_relaxed_pass rms ctype) as [|r2 l2] eqn:E2; cbn [is_nil].
    + unfold rooms_fallback. intros H.
      rewrite <- (firstn_skipn fallback_cap (dict_keys rms)).
      apply in_or_app. now left.
    + rewrite <- E2. apply Hsub.
  - rewrite <- E1. apply Hsub.
Qed.

Lemma qualified_instructors_In ins cid i :
  In i (qualified_instructors ins cid) ->
  (exists info, In (i, info) ins /\ In cid (instr_courses info)) \/
  (i = UNASSIGNED /\
   forall k info, In (k, info) ins -> ~ In cid (instr_courses info)).
Proof.
  unfold qualified_instructors.
  destruct (map fst (filter (fun kv => list_mem cid (instr_courses (snd kv))) ins))
    as [|q qs] eqn:E; cbn [is_nil].
  - intros [<-|[]]. right. split; [reflexivity|].
    intros k info Hin Hc.
    assert (H : In k (map fst (filter (fun kv => list_mem cid (instr_courses (snd kv))) ins))).
    { apply filtered_keys_In. exists info. split; [exact Hin|].
      now apply list_mem_In. }
    now rewrite E in H.
  - intros H. rewrite <- E in H. apply filtered_keys_In in H.
    destruct H as (info & Hin & Hc). left. exists info.
    split; [exact Hin | now apply list_mem_In].
Qed.

(** X10.  Every candidate in a constructed domain is built from the
    catalogs: its room is a room of the room table, its timeslot id, day
    and times are those of one catalog timeslot, and its instructor is
    either an instructor of the table who is qualified for the course,
    shown under that instructor's own name, or the placeholder
    ['UNASSIGNED'], used only when nobody in the table is qualified. *)
Theorem domain_values_come_from_catalogs (data : Data) (v : string)
    (info : VarInfo) (x : DomainValue) :
  In v (variables (TimetableCSP_init data)) ->
  dict_get v (variable_info (TimetableCSP_init data)) = Some info ->
  In x (domain_of (TimetableCSP_init data) v) ->
  dict_mem (room x) (rooms (TimetableCSP_init data)) = true /\
  (exists t, In t (data_timeslots data) /\
             timeslot_id x = TimeSlotID t /\ day x = Day t /\
             start_time x = StartTime t /\ end_time x = EndTime t) /\
  ((exists i,
       dict_get (instructor_id x) (instructor_courses (TimetableCSP_init data)) = Some i /\
       In (course_id info) (instr_courses i) /\
       instructor_name x = instr_name i) \/
   (instructor_id x = UNASSIGNED /\
    forall k i, In (k, i) (instructor_courses (TimetableCSP_init data)) ->
                ~ In (course_id info) (instr_courses i))).
Proof.
  intros Hv Hinfo Hx.
  unfold domain_of in Hx. rewrite (init_domains_lookup data v info Hv Hinfo) in Hx.
  unfold domain_for in Hx. apply build_domain_In in Hx.
  destruct Hx as (r & t & i & Hr & Ht & Hi & ->). cbn [room timeslot_id day
    start_time end_time instructor_id instructor_name].
  split; [|split].
  - apply dict_mem_In. now apply suitable_rooms_known in Hr.
  - change (timeslots (TimetableCSP_init data))
      with (parse_timeslots (data_timeslots data)) in Ht.
    unfold parse_timeslots in Ht. apply in_map_iff in Ht.
    destruct Ht as (row & <- & Hrow). exists row. cbn. auto.
  - apply qualified_instructors_In in Hi.
    destruct Hi as [(ii & Hin & Hc)|[-> Hnone]]; [left | right; now split].
    assert (Hget : dict_get i (instructor_courses (TimetableCSP_init data)) = Some ii).
    { apply dict_In_get; [|exact Hin].
      apply parse_instructors_well_keyed. }
    exists ii. split; [exact Hget|]. split; [exact Hc|].
    unfold instructor_name_of. now rewrite Hget.
Qed.

(** X11.  The size of a variable's domain is the number of rooms chosen
    for it, times the number of catalog timeslots, times the number of
    its instructor choices (the qualified ones, or the one placeholder). *)
Theorem domain_size_is_a_product (data : Data) (v : string) (info : VarInfo) :
  In v (variables (TimetableCSP_init data)) ->
  dict_get v (variable_info (TimetableCSP_init data)) = Some info ->
  domain_size (TimetableCSP_init data) v =
  List.length (suitable_rooms (rooms (TimetableCSP_init data))
                              (course_type info) (student_count info))
  * List.length (data_timeslots data)
  * List.length (qualified_instructors (instructor_courses (TimetableCSP_init data))
                                       (course_id info)).
Proof.
  intros Hv Hinfo. unfold domain_size, domain_of.
  rewrite (init_domains_lookup data v info Hv Hinfo).
  unfold domain_for. rewrite build_domain_length.
  change (timeslots (TimetableCSP_init data))
    with (parse_timeslots (data_timeslots data)).
  unfold parse_timeslots. now rewrite length_map.
Qed.

(** X12.  Capacity is given up only when it must be.  If some room both
    matches the course type and seats the section, every candidate of the
    domain uses such a room.  If no room does but some room matches the
    type, every candidate uses a type-matching room. *)
Theorem capacity_relaxed_only_when_needed (data : Data) (v : string)
    (info : VarInfo) (x : DomainValue) :
  In v (variables (TimetableCSP_init data)) ->
  dict_get v (variable_info (TimetableCSP_init data)) = Some info ->
  In x (domain_of (TimetableCSP_init data) v) ->
  rooms_relaxed_pass (rooms (TimetableCSP_init data)) (course_type info) <> [] ->
  exists rinfo,
    dict_get (room x) (rooms (TimetableCSP_init data)) = Some rinfo /\
    _room_matches_course (room_type rinfo) (course_type info) = true /\
    (rooms_first_pass (rooms (TimetableCSP_init data))
                      (course_type info) (student_count info) <> [] ->
     (student_count info <= room_capacity rinfo)%Z).
Proof.
  intros Hv Hinfo Hx Hrel.
  unfold domain_of in Hx. rewrite (init_domains_lookup data v info Hv Hinfo) in Hx.
  unfold domain_for in Hx. apply build_domain_room in Hx.
  assert (Hwk : well_keyed (rooms (TimetableCSP_init data)))
    by apply parse_rooms_well_keyed.
  unfold suitable_rooms in Hx.
  destruct (rooms_first_pass (rooms (TimetableCSP_init data))
              (course_type info) (student_count info)) as [|r1 l1] eqn:E1;
    cbn [is_nil] in Hx.
  - destruct (rooms_relaxed_pass (rooms (TimetableCSP_init data)) (course_type info))
      as [|r2 l2] eqn:E2; [congruence|].
    cbn [is_nil] in Hx. rewrite <- E2 in Hx.
    apply filtered_keys_In in Hx. destruct Hx as (rinfo & Hin & Hm).
    exists rinfo. split; [now apply dict_In_get|]. split; [exact Hm | congruence].
  - rewrite <- E1 in Hx. apply rooms_first_pass_In in Hx.
    destruct Hx as (rinfo & Hin & Hm & Hcap).
    exists rinfo. split; [now apply dict_In_get|]. split; [exact Hm | auto].
Qed.

Lemma domain_values_come_from_catalogs_witness :
  In "S1_C1" (variables (TimetableCSP_init Examples.one_room_two_sections)) /\
  dict_get "S1_C1" (variable_info (TimetableCSP_init Examples.one_room_two_sections))
    = Some MoreExamples.s1_c1_info /\
  In MoreExamples.s1_c1_value
     (domain_of (TimetableCSP_init Examples.one_room_two_sections) "S1_C1") /\
  dict_mem (room MoreExamples.s1_c1_value)
           (rooms (TimetableCSP_init Examples.one_room_two_sections)) = true.
Proof.
  assert (H1 : In "S1_C1" (variables (TimetableCSP_init Examples.one_room_two_sections)))
    by (vm_compute; left; reflexivity).
  assert (H2 : dict_get "S1_C1"
                 (variable_info (TimetableCSP_init Examples.one_room_two_sections))
               = Some MoreExamples.s1_c1_info) by reflexivity.
  assert (H3 : In MoreExamples.s1_c1_value
                  (domain_of (TimetableCSP_init Examples.one_room_two_sections) "S1_C1"))
    by (vm_compute; left; reflexivity).
  split; [exact H1|]. split; [exact H2|]. split; [exact H3|].
  apply (domain_values_come_from_catalogs Examples.one_room_two_sections "S1_C1"
           MoreExamples.s1_c1_info MoreExamples.s1_c1_value H1 H2 H3).
Defined.

Lemma domain_size_is_a_product_witness :
  In "S1_C1" (variables (TimetableCSP_init Examples.one_room_two_sections)) /\
  dict_get "S1_C1" (variable_info (TimetableCSP_init Examples.one_room_two_sections))
    = Some MoreExamples.s1_c1_info /\
  domain_size (TimetableCSP_init Examples.one_room_two_sections) "S1_C1" =
  List.length (suitable_rooms (rooms (TimetableCSP_init Examples.one_room_two_sections))
                 (course_type MoreExamples.s1_c1_info)
                 (student_count MoreExamples.s1_c1_info))
  * List.length (data_timeslots Examples.one_room_two_sections)
  * List.length (qualified_instructors
                   (instructor_courses (TimetableCSP_init Examples.one_room_two_sections))
                   (course_id MoreExamples.s1_c1_info)).
Proof.
  assert (H1 : In "S1_C1" (variables (TimetableCSP_init Examples.one_room_two_sections)))
    by (vm_compute; left; reflexivity).
  assert (H2 : dict_get "S1_C1"
                 (variable_info (TimetableCSP_init Examples.one_room_two_sections))
               = Some MoreExamples.s1_c1_info) by reflexivity.
  split; [exact H1|]. split; [exact H2|].
  apply (domain_size_is_a_product Examples.one_room_two_sections "S1_C1"
           MoreExamples.s1_c1_info H1 H2).
Defined.

Lemma capacity_relaxed_only_when_needed_witness :
  In "S1_C1" (variables (TimetableCSP_init Examples.one_room_two_sections)) /\
  dict_get "S1_C1" (variable_info (TimetableCSP_init Examples.one_room_two_sections))
    = Some MoreExamples.s1_c1_info /\
  In MoreExamples.s1_c1_value
     (domain_of (TimetableCSP_init Examples.one_room_two_sections) "S1_C1") /\
  rooms_relaxed_pass (rooms (TimetableCSP_init Examples.one_room_two_sections))
                     (course_type MoreExamples.s1_c1_info) <> [] /\
  exists rinfo,
    dict_get (room MoreExamples.s1_c1_value)
             (rooms (TimetableCSP_init Examples.one_room_two_sections)) = Some rinfo /\
    _room_matches_course (room_type rinfo) (course_type MoreExamples.s1_c1_info) = true /\
    (rooms_first_pass (rooms (TimetableCSP_init Examples.one_room_two_sections))
                      (course_type MoreExamples.s1_c1_info)
                      (student_count MoreExamples.s1_c1_info) <> [] ->
     (student_count MoreExamples.s1_c1_info <= room_capacity rinfo)%Z).
Proof.
  assert (H1 : In "S1_C1" (variables (TimetableCSP_init Examples.one_room_two_sections)))
    by (vm_compute; left; reflexivity).
  assert (H2 : dict_get "S1_C1"
                 (variable_info (TimetableCSP_init Examples.one_room_two_sections))
               = Some MoreExamples.s1_c1_info) by reflexivity.
  assert (H3 : In MoreExamples.s1_c1_value
                  (domain_of (TimetableCSP_init Examples.one_room_two_sections) "S1_C1"))
    by (vm_compute; left; reflexivity).
  assert (H4 : rooms_relaxed_pass (rooms (TimetableCSP_init Examples.one_room_two_sections))
                                  (course_type MoreExamples.s1_c1_info) <> [])
    by (vm_compute; discriminate).
  split; [exact H1|]. split; [exact H2|]. split; [exact H3|]. split; [exact H4|].
  apply (capacity_relaxed_only_when_needed Examples.one_room_two_sections "S1_C1"
           MoreExamples.s1_c1_info MoreExamples.s1_c1_value H1 H2 H3 H4).
Defined.

(* ------------------------------------------------------------------ *)
(** ** Parsing of the delimited id lists *)

Section Stripping.
Import PyStr.

Lemma lstrip_head s :
  lstrip s = EmptyString \/
  exists c r, lstrip s = String c r /\ is_space c = false.
Proof.
  induction s as [|c s IH]; simpl; [now left|].
  destruct (is_space c) eqn:E; [exact IH|].
  right. now exists c, s.
Qed.

Lemma rstrip_head c s :
  is_space c = false -> exists r, rstrip (String c s) = String c r.
Proof.
  intros E. simpl. destruct (rstrip s) as [|d r].
  - rewrite E. now exists EmptyString.
  - now exists (String d r).
Qed.

Lemma rstrip_idempotent s : rstrip (rstrip s) = rstrip s.
Proof.
  induction s as [|c s IH]; simpl; [reflexivity|].
  destruct (rstrip s) as [|d r] eqn:E.
  - destruct (is_space c) eqn:Ec; simpl; [reflexivity | now rewrite Ec].
  - change (rstrip (String c (String d r)))
      with (match rstrip (String d r) with
            | EmptyString => if is_space c then EmptyString else String c EmptyString
            | r' => String c r'
            end).
    now rewrite IH.
Qed.

Lemma strip_idempotent s : strip (strip s) = strip s.
Proof.
  unfold strip. destruct (lstrip_head s) as [E|(c & r & E & Hc)]; rewrite E.
  - reflexivity.
  - destruct (rstrip_head c r Hc) as [r' Er]. rewrite Er.
    cbn [lstrip]. rewrite Hc. rewrite <- Er. apply rstrip_idempotent.
Qed.

Lemma lstrip_chars s ch :
  In ch (list_ascii_of_string (lstrip s)) -> In ch (list_ascii_of_string s).
Proof.
  induction s as [|c s IH]; simpl; [auto|].
  destruct (is_space c); simpl; auto.
Qed.

Lemma rstrip_chars s ch :
  In ch (list_ascii_of_string (rstrip s)) -> In ch (list_ascii_of_string s).
Proof.
  induction s as [|c s IH]; simpl; [auto|].
  destruct (rstrip s) as [|d r].
  - destruct (is_space c); simpl; [contradiction | intros [H|[]]; auto].
  - simpl. simpl in IH. intros [H|H]; auto.
Qed.

Lemma split_chars sep s piece :
  In piece (split sep s) -> ~ In sep (list_ascii_of_string piece).
Proof.
  revert piece. induction s as [|c s IH]; intros piece; simpl.
  - intros [<-|[]]. simpl. auto.
  - destruct (Ascii.eqb_spec c sep) as [->|Hne].
    + intros [<-|H]; [simpl; auto | now apply IH].
    + destruct (split sep s) as [|w ws] eqn:E.
      * intros [<-|[]]. simpl. intros [H|[]]. congruence.
      * intros [<-|H].
        -- simpl. intros [H|H]; [congruence|].
           apply (IH w); [now left | exact H].
        -- apply IH. now right.
Qed.

Lemma id_list_In cell c :
  In c (id_list cell) ->
  c <> EmptyString /\ strip c = c /\ ~ In ","%char (list_ascii_of_string c).
Proof.
  unfold id_list. intros H. apply filter_In in H. destruct H as [H Ht].
  apply in_map_iff in H. destruct H as (piece & <- & Hp).
  split; [|split].
  - intros E. rewrite E in Ht. discriminate.
  - apply strip_idempotent.
  - intros Hc. apply (split_chars _ _ _ Hp).
    unfold strip in Hc. now apply lstrip_chars, rstrip_chars.
Qed.

End Stripping.

(** X13.  Every id read from a delimited cell ([QualifiedCourses],
    [Courses]) is non-empty, carries no whitespace at either end, and
    holds no comma; blank pieces between commas are dropped. *)
Theorem parsed_ids_are_trimmed (cell c : string) :
  In c (PyStr.id_list cell) ->
  c <> EmptyString /\ PyStr.strip c = c /\
  ~ In ","%char (list_ascii_of_string c).
Proof. apply id_list_In. Qed.

Lemma parsed_ids_are_trimmed_witness :
  In "C1" (PyStr.id_list " C1 , ,C9") /\
  PyStr.id_list " C1 , ,C9" = ["C1"; "C9"] /\
  "C1" <> EmptyString /\ PyStr.strip "C1" = "C1" /\
  ~ In ","%char (list_ascii_of_string "C1").
Proof.
  assert (H : In "C1" (PyStr.id_list " C1 , ,C9")) by (vm_compute; left; reflexivity).
  split; [exact H|]. split; [reflexivity|].
  apply (parsed_ids_are_trimmed " C1 , ,C9" "C1" H).
Defined.

(* ------------------------------------------------------------------ *)
(** ** The order of the schedule and the end of [main] *)

Lemma rank_compare_antisym a b :
  Schedule.rank_compare a b = CompOpp (Schedule.rank_compare b a).
Proof.
  destruct a as [x|], b as [y|]; simpl; try reflexivity.
  apply Nat.compare_antisym.
Qed.

Lemma row_le_total r1 r2 :
  Schedule.row_le r1 r2 = false -> Schedule.row_le r2 r1 = true.
Proof.
  unfold Schedule.row_le.
  rewrite (rank_compare_antisym (Schedule.day_order (Schedule.Day r2))).
  destruct (Schedule.rank_compare (Schedule.day_order (Schedule.Day r1))
                                  (Schedule.day_order (Schedule.Day r2)));
    simpl; try discriminate; try reflexivity.
  rewrite (String.compare_antisym (Schedule.Start_Time r2) (Schedule.Start_Time r1)).
  destruct (String.compare (Schedule.Start_Time r1) (Schedule.Start_Time r2));
    simpl; try discriminate; try reflexivity.
  intros H.
  destruct (String.leb_total (Schedule.Section_ID r1) (Schedule.Section_ID r2));
    congruence.
Qed.

Lemma insert_row_sorted r l :
  Sorted (fun x y => Schedule.row_le x y = true) l ->
  Sorted (fun x y => Schedule.row_le x y = true) (Schedule.insert_row r l).
Proof.
  induction l as [|r' l IH]; intros Hs; simpl.
  - repeat constructor.
  - destruct (Schedule.row_le r r') eqn:E.
    + constructor; [exact Hs | now constructor].
    + apply Sorted_inv in Hs. destruct Hs as [Hs Hhd].
      constructor; [now apply IH|].
      destruct l as [|r'' l]; simpl.
      * constructor. now apply row_le_total.
      * destruct (Schedule.row_le r r''); constructor.
        -- now apply row_le_total.
        -- now inversion Hhd.
Qed.

Lemma sort_values_sorted l :
  Sorted (fun x y => Schedule.row_le x y = true) (Schedule.sort_values l).
Proof.
  induction l as [|r l IH]; simpl; [constructor | now apply insert_row_sorted].
Qed.

Lemma string_not_after_trans a b c :
  String.compare a b <> Gt -> String.compare b c <> Gt -> String.compare a c <> Gt.
Proof.
  intros Hab Hbc.
  assert (Hrefl : forall x, String.compare x x = Eq)
    by (intros x; now apply OrderedTypeEx.String_as_OT.cmp_eq).
  destruct (String.compare a b) eqn:Eab; [| |congruence];
    destruct (String.compare b c) eqn:Ebc; try congruence.
  - apply OrderedTypeEx.String_as_OT.cmp_eq in Eab, Ebc. subst. now rewrite Hrefl.
  - apply OrderedTypeEx.String_as_OT.cmp_eq in Eab. subst. now rewrite Ebc.
  - apply OrderedTypeEx.String_as_OT.cmp_eq in Ebc. subst. now rewrite Eab.
  - apply OrderedTypeEx.String_as_OT.cmp_lt in Eab, Ebc.
    pose proof (OrderedTypeEx.String_as_OT.lt_trans _ _ _ Eab Ebc) as H.
    apply OrderedTypeEx.String_as_OT.cmp_lt in H.
    unfold OrderedTypeEx.String_as_OT.cmp in H. now rewrite H.
Qed.

Lemma rank_compare_trans x y z :
  Schedule.rank_compare x y <> Gt -> Schedule.rank_compare y z <> Gt ->
  Schedule.rank_compare x z <> Gt /\
  (Schedule.rank_compare x z = Eq ->
   Schedule.rank_compare x y = Eq /\ Schedule.rank_compare y z = Eq).
Proof.
  destruct x as [x|], y as [y|], z as [z|]; simpl; intros Hxy Hyz;
    try (exfalso; congruence).
  - rewrite Nat.compare_le_iff in Hxy, Hyz. split.
    + apply Nat.compare_le_iff. lia.
    + intros E. apply Nat.compare_eq_iff in E.
      split; apply Nat.compare_eq_iff; lia.
  - split; [discriminate | discriminate].
  - split; [discriminate | discriminate].
  - split; [discriminate | now split].
Qed.

Lemma row_le_not_after r1 r2 : Schedule.row_le r1 r2 = true -> not_after r1 r2.
Proof.
  unfold Schedule.row_le, not_after.
  destruct (Schedule.rank_compare _ _); [|trivial|discriminate].
  destruct (String.compare _ _); congruence.
Qed.

Lemma not_after_trans r1 r2 r3 : not_after r1 r2 -> not_after r2 r3 -> not_after r1 r3.
Proof.
  unfold not_after. intros H12 H23.
  destruct (rank_compare_trans (Schedule.day_order (Schedule.Day r1))
              (Schedule.day_order (Schedule.Day r2))
              (Schedule.day_order (Schedule.Day r3))) as [Hne Heq].
  - intros E. now rewrite E in H12.
  - intros E. now rewrite E in H23.
  - destruct (Schedule.rank_compare (Schedule.day_order (Schedule.Day r1))
                (Schedule.day_order (Schedule.Day r3))); [|trivial|congruence].
    destruct (Heq eq_refl) as [E12 E23]. rewrite E12 in H12. rewrite E23 in H23.
    now apply (string_not_after_trans _ (Schedule.Start_Time r2)).
Qed.

Lemma sorted_weaken {A} (R1 R2 : A -> A -> Prop) (l : list A) :
  (forall x y, R1 x y -> R2 x y) -> Sorted R1 l -> Sorted R2 l.
Proof.
  intros Himp Hs. induction Hs as [|a l Hs IH Hhd]; constructor; [exact IH|].
  destruct Hhd; constructor. now apply Himp.
Qed.

Lemma strongly_sorted_pair {A} (R : A -> A -> Prop) (l1 l2 l3 : list A) (x y : A) :
  StronglySorted R (l1 ++ x :: l2 ++ y :: l3) -> R x y.
Proof.
  induction l1 as [|a l1 IH]; simpl; intros H.
  - apply StronglySorted_inv in H. destruct H as [_ Hall].
    rewrite Forall_forall in Hall. apply Hall. apply in_or_app. right. now left.
  - apply StronglySorted_inv in H. now apply IH.
Qed.

(** X14.  In a returned schedule no row comes before a row of an earlier
    weekday (Sunday to Thursday, any other day last), nor before a row of
    the same weekday rank with an earlier start time: whenever [r1] stands
    before [r2], [r1] is not after [r2] by weekday and start time. *)
Theorem schedule_rows_are_ordered (data : Data) (a : dict DomainValue)
    (rows l1 l2 l3 : list Schedule.row) (r1 r2 : Schedule.row) :
  generate_schedule_dataframe (TimetableCSP_init data) a = Some rows ->
  rows = (l1 ++ r1 :: l2 ++ r2 :: l3)%list ->
  not_after r1 r2.
Proof.
  unfold generate_schedule_dataframe. destruct (is_nil a); [discriminate|].
  intros E Hsplit. inversion E as [Hrows]. clear E.
  pose proof (sort_values_sorted (map (schedule_record (TimetableCSP_init data)) a))
    as Hs.
  rewrite Hrows, Hsplit in Hs.
  apply (sorted_weaken _ not_after _ row_le_not_after) in Hs.
  apply Sorted_StronglySorted in Hs.
  - now apply strongly_sorted_pair in Hs.
  - intros x y z. apply not_after_trans.
Qed.

Lemma schedule_rows_are_ordered_witness :
  generate_schedule_dataframe (TimetableCSP_init Examples.one_room_two_sections)
                              MoreExamples.monday_then_sunday
  = Some [MoreExamples.sunday_row; MoreExamples.monday_row] /\
  [MoreExamples.sunday_row; MoreExamples.monday_row]
  = ([] ++ MoreExamples.sunday_row :: [] ++ MoreExamples.monday_row :: [])%list /\
  not_after MoreExamples.sunday_row MoreExamples.monday_row.
Proof.
  assert (H1 : generate_schedule_dataframe
                 (TimetableCSP_init Examples.one_room_two_sections)
                 MoreExamples.monday_then_sunday
               = Some [MoreExamples.sunday_row; MoreExamples.monday_row])
    by reflexivity.
  assert (H2 : [MoreExamples.sunday_row; MoreExamples.monday_row]
               = ([] ++ MoreExamples.sunday_row :: [] ++ MoreExamples.monday_row :: [])%list)
    by reflexivity.
  split; [exact H1|]. split; [exact H2|].
  apply (schedule_rows_are_ordered Examples.one_room_two_sections
           MoreExamples.monday_then_sunday _ [] [] [] _ _ H1 H2).
Defined.


(** The fourth ending on a small scale: one variable, room for one call. *)
Example main_recursion_error : main 1 Examples.one_section_two_slots = None.
Proof. reflexivity. Qed.

Example main_saves_schedule :
  main 5 Examples.dangling_course
  = Some (Saved [Schedule.mkRow "S1" "C1" "Algorithms" "Lecture" "Sunday"
                                "09:00" "10:30" "R1" "Ann" 30]).
Proof. reflexivity. Qed.

(* ------------------------------------------------------------------ *)
(** ** The reports of the data loader *)

Lemma string_length_append s1 s2 :
  String.length (s1 ++ s2) = String.length s1 + String.length s2.
Proof. induction s1 as [|c s1 IH]; simpl; [reflexivity | now rewrite IH]. Qed.

Lemma substring_length_le n m s : String.length (substring n m s) <= m.
Proof.
  revert n m. induction s as [|c s IH]; intros n m.
  - destruct n, m; simpl; lia.
  - destruct n as [|n]; simpl.
    + destruct m as [|m]; simpl; [lia|]. specialize (IH 0 m). lia.
    + apply IH.
Qed.

Lemma filter_nil_iff {A} (f : A -> bool) (l : list A) :
  filter f l = [] <-> forall x, In x l -> f x = false.
Proof.
  induction l as [|y l IH]; simpl.
  - split; [intros _ x [] | reflexivity].
  - destruct (f y) eqn:E.
    + split; [discriminate|]. intros H. specialize (H y (or_introl eq_refl)).
      congruence.
    + rewrite IH. split.
      * intros H x [<-|Hx]; auto.
      * intros H x Hx. apply H. now right.
Qed.

Lemma compatibility_row_facts rms s :
  Compat.Section_ID (compatibility_row rms s) = SectionID s /\
  Compat.Student_Count (compatibility_row rms s) = StudentCount s /\
  Compat.Room_Count (compatibility_row rms s)
    = List.length (valid_rooms rms (StudentCount s)) /\
  String.length (Compat.Available_Rooms (compatibility_row rms s)) <= 53 /\
  (Compat.Room_Count (compatibility_row rms s) = 0 ->
   Compat.Available_Rooms (compatibility_row rms s) = "None").
Proof.
  unfold compatibility_row.
  destruct (valid_rooms rms (StudentCount s)) as [|r l]; cbn [is_nil].
  - cbn. repeat split; auto. lia.
  - cbn [Compat.Section_ID Compat.Student_Count Compat.Room_Count
         Compat.Available_Rooms].
    repeat split; auto; [|discriminate].
    destruct (50 <? String.length (String.concat ", " (map RoomID (r :: l))))%nat eqn:E.
    + rewrite string_length_append.
      pose proof (substring_length_le 0 50 (String.concat ", " (map RoomID (r :: l)))).
      simpl String.length at 2. lia.
    + apply Nat.ltb_ge in E. lia.
Qed.

(** X16.  The section-room compatibility report raises [KeyError] when
    there is no section.  Otherwise it has one row per section, in order;
    a row's room count is the number of room rows with enough seats, its
    room list is never longer than 53 characters, and a count of 0 always
    comes with the list text "None". *)
Theorem compatibility_report_shape (data : Data) :
  match generate_section_room_compatibility_report data with
  | inl e => e = KeyError /\ data_sections data = []
  | inr report =>
      data_sections data <> [] /\
      map Compat.Section_ID report = map SectionID (data_sections data) /\
      map Compat.Room_Count report =
        map (fun s => List.length (valid_rooms (data_rooms data) (StudentCount s)))
            (data_sections data) /\
      Forall (fun row =>
                String.length (Compat.Available_Rooms row) <= 53 /\
                (Compat.Room_Count row = 0 -> Compat.Available_Rooms row = "None"))
             report
  end.
Proof.
  unfold generate_section_room_compatibility_report.
  destruct (data_sections data) as [|s l]; [now split|].
  set (secs := s :: l).
  assert (Hn : is_nil (map (compatibility_row (data_rooms data)) secs) = false)
    by reflexivity.
  rewrite Hn. split; [discriminate|].
  split; [|split].
  - rewrite map_map. apply map_ext. intros x.
    apply (compatibility_row_facts (data_rooms data) x).
  - rewrite map_map. apply map_ext. intros x.
    apply (compatibility_row_facts (data_rooms data) x).
  - apply Forall_forall. intros row Hrow. apply in_map_iff in Hrow.
    destruct Hrow as (x & <- & _).
    destruct (compatibility_row_facts (data_rooms data) x) as (_ & _ & _ & H4 & H5).
    now split.
Qed.

Lemma parse_rooms_from_row rows k info :
  In (k, info) (parse_rooms rows) ->
  exists r, In r rows /\ RoomID r = k /\
            room_type info = RoomType r /\ room_capacity info = Capacity r.
Proof.
  unfold parse_rooms. intros H.
  apply (fold_left_dict_set_from_row RoomID
           (fun r => mkRoomInfo (RoomType r) (Capacity r))) in H.
  destruct H as [(r & Hr & Hk & Hv)|[]].
  exists r. subst info. cbn. auto.
Qed.

(** X17.  A report row with room count 0 tells what the solver will do:
    for a section of that size the first room pass of domain construction
    finds no room, whatever the course type, so capacity gets relaxed. *)
Theorem zero_room_count_means_relaxation (data : Data)
    (report : list Compat.row) (row : Compat.row) (ctype : string) :
  generate_section_room_compatibility_report data = inr report ->
  In row report ->
  Compat.Room_Count row = 0 ->
  rooms_first_pass (rooms (TimetableCSP_init data)) ctype (Compat.Student_Count row) = [].
Proof.
  unfold generate_section_room_compatibility_report.
  destruct (is_nil _); [discriminate|].
  intros E Hrow Hzero. inversion E; subst report; clear E.
  apply in_map_iff in Hrow. destruct Hrow as (s & <- & _).
  destruct (compatibility_row_facts (data_rooms data) s) as (_ & Hc & Hn & _).
  rewrite Hc. rewrite Hn in Hzero. apply length_zero_iff_nil in Hzero.
  unfold valid_rooms in Hzero. rewrite filter_nil_iff in Hzero.
  unfold rooms_first_pass.
  assert (Hf : filter (fun kv : string * RoomInfo =>
                         _room_matches_course (room_type (snd kv)) ctype
                         && (StudentCount s <=? room_capacity (snd kv))%Z)
                      (rooms (TimetableCSP_init data)) = []).
  { apply filter_nil_iff. intros [k info] Hin. cbn [snd].
    change (rooms (TimetableCSP_init data)) with (parse_rooms (data_rooms data)) in Hin.
    apply parse_rooms_from_row in Hin. destruct Hin as (r & Hr & _ & _ & Hcap).
    rewrite Hcap, (Hzero r Hr). apply andb_false_r. }
  now rewrite Hf.
Qed.

Lemma zero_room_count_means_relaxation_witness :
  generate_section_room_compatibility_report MoreExamples.small_room
    = inr [Compat.mkRow "S1" 30 "None" 0] /\
  In (Compat.mkRow "S1" 30 "None" 0) [Compat.mkRow "S1" 30 "None" 0] /\
  Compat.Room_Count (Compat.mkRow "S1" 30 "None" 0) = 0 /\
  rooms_first_pass (rooms (TimetableCSP_init MoreExamples.small_room)) "Lecture"
                   (Compat.Student_Count (Compat.mkRow "S1" 30 "None" 0)) = [].
Proof.
  assert (H1 : generate_section_room_compatibility_report MoreExamples.small_room
               = inr [Compat.mkRow "S1" 30 "None" 0]) by reflexivity.
  assert (H2 : In (Compat.mkRow "S1" 30 "None" 0) [Compat.mkRow "S1" 30 "None" 0])
    by (left; reflexivity).
  assert (H3 : Compat.Room_Count (Compat.mkRow "S1" 30 "None" 0) = 0) by reflexivity.
  split; [exact H1|]. split; [exact H2|]. split; [exact H3|].
  apply (zero_room_count_means_relaxation MoreExamples.small_room _ _ "Lecture"
           H1 H2 H3).
Defined.

Lemma insert_string_In x y l : In y (insert_string x l) <-> y = x \/ In y l.
Proof.
  induction l as [|z l IH]; simpl.
  - intuition.
  - destruct (String.leb x z); simpl; [intuition | rewrite IH; intuition].
Qed.

Lemma sorted_strings_In y l : In y (sorted_strings l) <-> In y l.
Proof.
  induction l as [|x l IH]; simpl; [reflexivity|].
  rewrite insert_string_In, IH. intuition.
Qed.

Lemma insert_string_sorted x l :
  Sorted (fun a b => String.leb a b = true) l ->
  Sorted (fun a b => String.leb a b = true) (insert_string x l).
Proof.
  induction l as [|y l IH]; intros Hs; simpl.
  - repeat constructor.
  - destruct (String.leb x y) eqn:E.
    + constructor; [exact Hs | now constructor].
    + assert (Hyx : String.leb y x = true)
        by (destruct (String.leb_total x y); congruence).
      apply Sorted_inv in Hs. destruct Hs as [Hs Hhd].
      constructor; [now apply IH|].
      destruct l as [|z l]; simpl.
      * now constructor.
      * destruct (String.leb x z); constructor; [exact Hyx | now inversion Hhd].
Qed.

Lemma sorted_strings_sorted l :
  Sorted (fun a b => String.leb a b = true) (sorted_strings l).
Proof.
  induction l as [|x l IH]; simpl; [constructor | now apply insert_string_sorted].
Qed.

Lemma parse_instructors_from_row rows k info :
  In (k, info) (parse_instructors rows) ->
  exists r, In r rows /\ InstructorID r = k /\
            instr_courses info = PyStr.id_list (QualifiedCourses r).
Proof.
  unfold parse_instructors. intros H.
  apply (fold_left_dict_set_from_row InstructorID
           (fun r => mkInstructorInfo (Name r) (PyStr.id_list (QualifiedCourses r))
                       (PreferredSlots r))) in H.
  destruct H as [(r & Hr & Hk & Hv)|[]].
  exists r. subst info. cbn. auto.
Qed.

(** X18.  The instructor qualification report raises [ZeroDivisionError]
    when there is no instructor row.  Otherwise the courses it lists as
    having no qualified instructor, in ascending order, are exactly the
    catalog courses that no instructor row names; and for each of them
    the solver has only the placeholder instructor to offer. *)
Theorem qualification_report_behaviour (data : Data) :
  match generate_instructor_qualification_report data with
  | inl e => e = ZeroDivisionError /\ data_instructors data = []
  | inr report =>
      data_instructors data <> [] /\
      Sorted (fun a b => String.leb a b = true) (uncovered_courses report) /\
      (forall c,
         In c (uncovered_courses report) <->
         In c (map CourseID (data_courses data)) /\
         forall r, In r (data_instructors data) ->
                   ~ In c (PyStr.id_list (QualifiedCourses r))) /\
      (forall c,
         In c (uncovered_courses report) ->
         qualified_instructors (instructor_courses (TimetableCSP_init data)) c
         = [UNASSIGNED])
  end.
Proof.
  unfold generate_instructor_qualification_report.
  destruct (data_instructors data) as [|i0 rest] eqn:Ei; cbn [is_nil]; [now split|].
  rewrite <- Ei. cbn [uncovered_courses].
  assert (Hchar : forall c,
    In c (sorted_strings
            (filter (fun c0 => negb (list_mem c0 (covered_ids (data_instructors data))))
                    (nodup string_dec (map CourseID (data_courses data))))) <->
    In c (map CourseID (data_courses data)) /\
    forall r, In r (data_instructors data) ->
              ~ In c (PyStr.id_list (QualifiedCourses r))).
  { intros c. rewrite sorted_strings_In, filter_In, nodup_In, negb_true_iff.
    split; intros [H1 H2]; (split; [exact H1|]).
    - intros r Hr Hc.
      assert (Hm : list_mem c (covered_ids (data_instructors data)) = true).
      { apply list_mem_In. unfold covered_ids. apply in_flat_map. now exists r. }
      congruence.
    - destruct (list_mem c (covered_ids (data_instructors data))) eqn:Em; [|reflexivity].
      exfalso. apply list_mem_In in Em. unfold covered_ids in Em.
      apply in_flat_map in Em. destruct Em as (r & Hr & Hc). now apply (H2 r). }
  split; [congruence|]. split; [apply sorted_strings_sorted|]. split; [exact Hchar|].
  intros c Hc. apply Hchar in Hc. destruct Hc as [_ Hnone].
  unfold qualified_instructors.
  assert (Hf : filter (fun kv : string * InstructorInfo =>
                         list_mem c (instr_courses (snd kv)))
                      (instructor_courses (TimetableCSP_init data)) = []).
  { apply filter_nil_iff. intros [k info] Hin. cbn [snd].
    change (instructor_courses (TimetableCSP_init data))
      with (parse_instructors (data_instructors data)) in Hin.
    apply parse_instructors_from_row in Hin. destruct Hin as (r & Hr & _ & Hq).
    destruct (list_mem c (instr_courses info)) eqn:Em; [|reflexivity].
    exfalso. apply list_mem_In in Em. rewrite Hq in Em. now apply (Hnone r). }
  now rewrite Hf.
Qed.

Lemma filter_length_zero {A} (f : A -> bool) (l : list A) x :
  List.length (filter f l) = 0 -> In x l -> f x = false.
Proof.
  intros H Hx. apply length_zero_iff_nil in H.
  now apply (proj1 (filter_nil_iff f l) H).
Qed.

Lemma relaxed_pass_nil_fallback rms ctype count :
  rooms_relaxed_pass rms ctype = [] ->
  suitable_rooms rms ctype count = rooms_fallback rms.
Proof.
  intros H. unfold suitable_rooms.
  assert (H1 : rooms_first_pass rms ctype count = []).
  { unfold rooms_first_pass. unfold rooms_relaxed_pass in H.
    apply map_eq_nil in H. rewrite filter_nil_iff in H.
    assert (Hf : filter (fun kv : string * RoomInfo =>
                           _room_matches_course (room_type (snd kv)) ctype
                           && (count <=? room_capacity (snd kv))%Z) rms = []).
    { apply filter_nil_iff. intros kv Hin. now rewrite (H kv Hin). }
    now rewrite Hf. }
  rewrite H1. cbn [is_nil]. now rewrite H.
Qed.

(** X19.  The room type summary foretells the fallback.  When it warns
    that there is no lab room, every lab-only course gets its rooms from
    the fallback list, the first ten rooms whatever their type; when it
    warns that there is no lecture room, so does every lecture-only
    course. *)
Theorem missing_room_type_means_fallback (data : Data) (ctype : string) (count : Z) :
  (lab_type ctype = true /\ lecture_type ctype = false /\
   lab_status (generate_room_type_summary data) = NoLabRooms) \/
  (lecture_type ctype = true /\ lab_type ctype = false /\
   lecture_rooms_found (generate_room_type_summary data) = false) ->
  suitable_rooms (rooms (TimetableCSP_init data)) ctype count
  = rooms_fallback (rooms (TimetableCSP_init data)).
Proof.
  intros H. apply relaxed_pass_nil_fallback.
  unfold rooms_relaxed_pass.
  assert (Hf : filter (fun kv : string * RoomInfo =>
                         _room_matches_course (room_type (snd kv)) ctype)
                      (rooms (TimetableCSP_init data)) = []).
  { apply filter_nil_iff. intros [k info] Hin. cbn [snd].
    change (rooms (TimetableCSP_init data)) with (parse_rooms (data_rooms data)) in Hin.
    apply parse_rooms_from_row in Hin. destruct Hin as (r & Hr & _ & Ht & _).
    rewrite room_matches_course_formula. cbv zeta.
    fold (lecture_type ctype) (lab_type ctype)
         (lecture_type (room_type info)) (lab_type (room_type info)).
    rewrite Ht.
    destruct H as [(Hlab & Hlec & Hs)|(Hlec & Hlab & Hs)]; rewrite Hlab, Hlec.
    - cbn [andb orb]. rewrite orb_false_r.
      cbn [generate_room_type_summary lab_status] in Hs.
      destruct (List.length (filter (fun r0 => lab_type (RoomType r0)) (data_rooms data))
                =? 0)%nat eqn:E0.
      + apply Nat.eqb_eq in E0.
        exact (filter_length_zero (fun r0 => lab_type (RoomType r0)) _ r E0 Hr).
      + cbn [andb] in Hs. destruct (_ <? _)%nat; discriminate.
    - cbn [andb orb]. rewrite !orb_false_r.
      cbn [generate_room_type_summary lecture_rooms_found] in Hs.
      apply negb_false_iff, Nat.eqb_eq in Hs.
      exact (filter_length_zero (fun r0 => lecture_type (RoomType r0)) _ r Hs Hr). }
  now rewrite Hf.
Qed.

Lemma missing_room_type_means_fallback_witness :
  ((lab_type "Lab" = true /\ lecture_type "Lab" = false /\
    lab_status (generate_room_type_summary MoreExamples.small_room) = NoLabRooms) \/
   (lecture_type "Lab" = true /\ lab_type "Lab" = false /\
    lecture_rooms_found (generate_room_type_summary MoreExamples.small_room) = false)) /\
  suitable_rooms (rooms (TimetableCSP_init MoreExamples.small_room)) "Lab" 30
  = rooms_fallback (rooms (TimetableCSP_init MoreExamples.small_room)).
Proof.
  assert (H : (lab_type "Lab" = true /\ lecture_type "Lab" = false /\
               lab_status (generate_room_type_summary MoreExamples.small_room)
               = NoLabRooms) \/
              (lecture_type "Lab" = true /\ lab_type "Lab" = false /\
               lecture_rooms_found (generate_room_type_summary MoreExamples.small_room)
               = false)).
  { left. repeat split; reflexivity. }
  split; [exact H|].
  apply (missing_room_type_means_fallback MoreExamples.small_room "Lab" 30 H).
Defined.
